(** * scripts/train.py : the training driver of rl-starter-files

    A shallow embedding of the script.  The script is one linear sequence of
    calls into collaborating libraries (argparse, gym, torch, torch_rl,
    utils, tensorboardX) followed by a [while] loop.  The libraries are not
    part of the repository slice; every call into them is recorded as an
    [Event], and what they return is read from a record [Libs] of oracles.
    Python's own semantics (integer arithmetic, [%], [or], list indexing,
    [range], exceptions) is written out.

    The clock readings taken around an update (lines 125 and 127) are
    finite floats, hence rationals; the script divides by their difference
    (line 136), which is [0.0] exactly when the two readings are equal, and
    that division raises [ZeroDivisionError] like any other.  Outside the
    model: the values of [fps] and [duration], the readings of lines 119
    and 135 that only enter [duration], and the text produced by
    [str.format].  Calls into the libraries are taken to return, and
    [utils.synthesize] to give the four statistics the format string of
    line 143 has fields for.  A model object is moved between devices only
    by [.cpu()] and [.cuda()]. *)

From Stdlib Require Import ZArith QArith List String Bool Lia.
Import ListNotations.
Local Open Scope string_scope.
Local Open Scope list_scope.
Local Open Scope Z_scope.

(** Python's [+] on [str]. *)
Infix "+++" := String.append (left associativity, at level 50).

(** ** Data *)

Inductive Device := CPU | CUDA.

Inductive Exn := ValueError | IndexError | ZeroDivisionError | SystemExit.

(** An environment instance returned by [gym.make]: [env_id] numbers the
    instances in construction order, [env_seeded] is the last argument of
    [env.seed] on it. *)
Record EnvObj := {
  env_id : nat;
  env_name : string;
  env_seeded : option Z
}.

Set Implicit Arguments.

Section Data.

(** Python [float] values are carried around, never inspected. *)
Variable Float : Type.

(** The namespace returned by [parser.parse_args()] (lines 16-61). *)
Record Args := {
  algo : string;
  env : string;
  model : option string;
  seed : Z;
  procs : Z;
  frames : Z;
  log_interval : Z;
  save_interval : Z;
  no_tb : bool;
  frames_per_proc : option Z;
  discount : Float;
  lr : Float;
  gae_tau : Float;
  entropy_coef : Float;
  value_loss_coef : Float;
  max_grad_norm : Float;
  recurrence : Z;
  optim_eps : Float;
  optim_alpha : Float;
  clip_eps : Float;
  epochs : Z;
  batch_size : Z
}.

(** The dictionary returned by [algo.update_parameters()], with the keys the
    script reads. *)
Record Log := {
  log_num_frames : Z;
  log_return_per_episode : list Float;
  log_reshaped_return_per_episode : list Float;
  log_num_frames_per_episode : list Float;
  log_entropy : Float;
  log_value : Float;
  log_policy_loss : Float;
  log_value_loss : Float
}.

(** The algorithm object, with the positional arguments of its constructor
    (lines 93-100); the model, the preprocessor and [utils.reshape_reward]
    are the same objects in both and are left out. *)
Inductive Algo :=
| A2CAlgo (envs : list EnvObj) (fpp : option Z)
          (discount lr gae_tau entropy_coef value_loss_coef max_grad_norm : Float)
          (recurrence : Z) (optim_alpha optim_eps : Float)
| PPOAlgo (envs : list EnvObj) (fpp : option Z)
          (discount lr gae_tau entropy_coef value_loss_coef max_grad_norm : Float)
          (recurrence : Z) (optim_eps clip_eps : Float) (epochs batch_size : Z).

(** What is handed to [logger.log]. *)
Inductive LogMsg :=
| MsgCommand (argv : list string)
| MsgModel
| MsgMetrics (i num_frames : Z) (rreturn nframes : list Float)
             (entropy value policy_loss value_loss : Float).

(** The value argument of [writer.add_scalar]. *)
Inductive Scalar :=
| SInt (z : Z)
| SFloat (x : Float)
| SClock.

(** One call into a collaborating library. *)
Inductive Event :=
| EvParseArgs (argv : list string)
| EvSeed (s : Z)
| EvGymMake (id : nat) (name : string)
| EvEnvSeed (id : nat) (s : Z)
| EvStrftime
| EvObssPreprocessor (model_name : string) (e : EnvObj)
| EvLoadModel (model_name : string) (e : EnvObj)
| EvModelCuda
| EvModelCpu
| EvAlgo (al : Algo)
| EvLogger (log_name : string)
| EvSummaryWriter (log_name : string)
| EvLog (m : LogMsg) (to_print : bool)
| EvUpdateParameters (j : nat)
| EvAddScalar (tag : string) (v : Scalar) (step : Z)
| EvVocabSave
| EvSaveModel (model_name : string) (d : Device).

(** What the libraries answer.  [update_parameters j] is the dictionary
    returned by the [j]-th call ([j] from 1) of [algo.update_parameters()];
    [time_before_update j] and [time_after_update j] are the readings of
    [time.time()] at lines 125 and 127, just before and just after that
    call; [checkpoint_device] is where [utils.load_model] would put the
    model on a machine with CUDA (without CUDA a model can only be on the
    CPU). *)
Record Libs := {
  sys_argv : list string;
  parse_args : list string -> option Args;
  strftime_now : string;
  cuda_is_available : bool;
  checkpoint_device : Device;
  update_parameters : nat -> Log;
  time_before_update : nat -> Q;
  time_after_update : nat -> Q;
  synthesize : list Float -> list (string * Float)
}.

(** The part of the outside world the script changes. *)
Record World := {
  envs_made : nat;
  updates : nat;
  device : Device
}.

(** The two counters of the training loop (lines 118 and 120). *)
Record Vars := {
  num_frames : Z;
  i : Z
}.

(** ** Effects *)

Inductive Result (A : Type) :=
| Ok (x : A)
| Raise (e : Exn)
| OutOfFuel.

Record Run (A : Type) := {
  out : Result A;
  events : list Event;
  final : World
}.

Definition M (A : Type) := World -> Run A.

End Data.

Unset Implicit Arguments.

Arguments Ok {A} x.
Arguments Raise {A} e.
Arguments OutOfFuel {A}.
Arguments out {Float A} r.
Arguments events {Float A} r.
Arguments final {Float A} r.
Arguments Build_Run {Float A} out events final.
Arguments MsgCommand {Float} argv.
Arguments MsgModel {Float}.
Arguments SInt {Float} z.
Arguments SClock {Float}.
Arguments SFloat {Float} x.
Arguments EvParseArgs {Float} argv.
Arguments EvSeed {Float} s.
Arguments EvGymMake {Float} id name.
Arguments EvEnvSeed {Float} id s.
Arguments EvStrftime {Float}.
Arguments EvObssPreprocessor {Float} model_name e.
Arguments EvLoadModel {Float} model_name e.
Arguments EvModelCuda {Float}.
Arguments EvModelCpu {Float}.
Arguments EvAlgo {Float} al.
Arguments EvLogger {Float} log_name.
Arguments EvSummaryWriter {Float} log_name.
Arguments EvLog {Float} m to_print.
Arguments EvUpdateParameters {Float} j.
Arguments EvAddScalar {Float} tag v step.
Arguments EvVocabSave {Float}.
Arguments EvSaveModel {Float} model_name d.

Section Script.

Context {Float : Type}.
Variable L : Libs Float.

Definition ret {A} (x : A) : M Float A :=
  fun w => {| out := Ok x; events := []; final := w |}.

Definition bind {A B} (m : M Float A) (f : A -> M Float B) : M Float B :=
  fun w =>
    match m w with
    | {| out := Ok x; events := evs; final := w1 |} =>
        match f x w1 with
        | {| out := o; events := evs'; final := w2 |} =>
            {| out := o; events := evs ++ evs'; final := w2 |}
        end
    | {| out := Raise e; events := evs; final := w1 |} =>
        {| out := Raise e; events := evs; final := w1 |}
    | {| out := OutOfFuel; events := evs; final := w1 |} =>
        {| out := OutOfFuel; events := evs; final := w1 |}
    end.

Definition raise {A} (e : Exn) : M Float A :=
  fun w => {| out := Raise e; events := []; final := w |}.

Definition out_of_fuel {A} : M Float A :=
  fun w => {| out := OutOfFuel; events := []; final := w |}.

Definition emit (ev : Event Float) : M Float unit :=
  fun w => {| out := Ok tt; events := [ev]; final := w |}.

Definition emits (evs : list (Event Float)) : M Float unit :=
  fun w => {| out := Ok tt; events := evs; final := w |}.

Definition when (b : bool) (m : M Float unit) : M Float unit :=
  if b then m else ret tt.

Notation "x <- m ;; k" := (bind m (fun x => k))
  (at level 100, m at next level, right associativity).
Notation "m ;;; k" := (bind m (fun _ => k))
  (at level 100, right associativity).

(** ** Python primitives *)

(** [x % y] on [int]: the sign of the result follows the divisor, and a zero
    divisor raises. *)
Definition py_mod (x y : Z) : M Float Z :=
  if y =? 0 then raise ZeroDivisionError else ret (x mod y).

(** [x / d] on [float], as far as raising goes: a zero divisor raises. *)
Definition py_truediv_defined (d : Q) : M Float unit :=
  if Qeq_bool d 0 then raise ZeroDivisionError else ret tt.

(** [l[0]]. *)
Definition py_first {A} (l : list A) : M Float A :=
  match l with
  | [] => raise IndexError
  | x :: _ => ret x
  end.

(** [range(n)]. *)
Definition py_range (n : Z) : list Z :=
  map Z.of_nat (seq 0 (Z.to_nat n)).

(** [x or y] with [x] a string or [None]: [None] and the empty string are
    falsy. *)
Definition py_or (x : option string) (y : string) : string :=
  match x with
  | None => y
  | Some s => if String.eqb s "" then y else s
  end.

(** ** The libraries *)

Definition utils_seed (s : Z) : M Float unit := emit (EvSeed s).

Definition gym_make (name : string) : M Float EnvObj :=
  fun w =>
    {| out := Ok {| env_id := envs_made w; env_name := name; env_seeded := None |};
       events := [EvGymMake (envs_made w) name];
       final := {| envs_made := S (envs_made w); updates := updates w;
                   device := device w |} |}.

Definition env_seed (e : EnvObj) (s : Z) : M Float EnvObj :=
  emit (EvEnvSeed (env_id e) s) ;;;
  ret {| env_id := env_id e; env_name := env_name e; env_seeded := Some s |}.

Definition now_strftime : M Float string :=
  emit EvStrftime ;;; ret (strftime_now L).

Definition set_device (d : Device) : M Float unit :=
  fun w =>
    {| out := Ok tt; events := [];
       final := {| envs_made := envs_made w; updates := updates w; device := d |} |}.

Definition get_device : M Float Device :=
  fun w => {| out := Ok (device w); events := []; final := w |}.

Definition load_model (model_name : string) (e : EnvObj) : M Float unit :=
  emit (EvLoadModel model_name e) ;;;
  set_device (if cuda_is_available L then checkpoint_device L else CPU).

Definition acmodel_cuda : M Float unit := emit EvModelCuda ;;; set_device CUDA.

Definition acmodel_cpu : M Float unit := emit EvModelCpu ;;; set_device CPU.

Definition save_model (model_name : string) : M Float unit :=
  d <- get_device ;; emit (EvSaveModel model_name d).

(** [time.time()] at line 125, before the next update, and at line 127,
    after the update just made. *)
Definition time_before : M Float Q :=
  fun w =>
    {| out := Ok (time_before_update L (S (updates w))); events := []; final := w |}.

Definition time_after : M Float Q :=
  fun w =>
    {| out := Ok (time_after_update L (updates w)); events := []; final := w |}.

Definition algo_update_parameters : M Float (Log Float) :=
  fun w =>
    {| out := Ok (update_parameters L (S (updates w)));
       events := [EvUpdateParameters (S (updates w))];
       final := {| envs_made := envs_made w; updates := S (updates w);
                   device := device w |} |}.

(** ** The script *)

(** Lines 69-73, with the loop variable ranging over [ns]. *)
Fixpoint for_envs (a : Args Float) (ns : list Z) (envs : list EnvObj)
  : M Float (list EnvObj) :=
  match ns with
  | [] => ret envs
  | n :: rest =>
      e <- gym_make (env a) ;;
      e' <- env_seed e (seed a + n) ;;
      for_envs a rest (envs ++ [e'])
  end.

Definition make_envs (a : Args Float) : M Float (list EnvObj) :=
  for_envs a (py_range (procs a)) [].

(** Line 78. *)
Definition model_name_of (a : Args Float) (suffix : string) : string :=
  py_or (model a) (env a +++ "_" +++ algo a +++ "_" +++ suffix).

(** Line 106. *)
Definition log_name_of (a : Args Float) (suffix : string) : string :=
  model_name_of a suffix
  +++ (match model a with Some _ => "_" +++ suffix | None => "" end).

(** Lines 92-102. *)
Definition make_algo (a : Args Float) (envs : list EnvObj) : M Float (Algo Float) :=
  if String.eqb (algo a) "a2c" then
    let al := A2CAlgo envs (frames_per_proc a) (discount a) (lr a) (gae_tau a)
                (entropy_coef a) (value_loss_coef a) (max_grad_norm a)
                (recurrence a) (optim_alpha a) (optim_eps a) in
    emit (EvAlgo al) ;;; ret al
  else if String.eqb (algo a) "ppo" then
    let al := PPOAlgo envs (frames_per_proc a) (discount a) (lr a) (gae_tau a)
                (entropy_coef a) (value_loss_coef a) (max_grad_norm a)
                (recurrence a) (optim_eps a) (clip_eps a) (epochs a)
                (batch_size a) in
    emit (EvAlgo al) ;;; ret al
  else raise ValueError.

(** Lines 65-114: everything before the loop; returns [model_name]. *)
Definition setup (a : Args Float) : M Float string :=
  utils_seed (seed a) ;;;
  envs <- make_envs a ;;
  suffix <- now_strftime ;;
  let model_name := model_name_of a suffix in
  e0 <- py_first envs ;;
  emit (EvObssPreprocessor model_name e0) ;;;
  e0' <- py_first envs ;;
  load_model model_name e0' ;;;
  when (cuda_is_available L) acmodel_cuda ;;;
  _ <- make_algo a envs ;;
  let log_name := log_name_of a suffix in
  emit (EvLogger log_name) ;;;
  when (negb (no_tb a)) (emit (EvSummaryWriter log_name)) ;;;
  emit (EvLog (MsgCommand (sys_argv L)) false) ;;;
  emit (EvLog MsgModel true) ;;;
  ret model_name.

(** Lines 149-161. *)
Definition tb_scalars (n nf : Z) (log : Log Float)
  (return_per_episode rreturn_per_episode num_frames_per_episode
     : list (string * Float)) : list (Event Float) :=
  [EvAddScalar "frames" (SInt nf) n;
   EvAddScalar "FPS" SClock n;
   EvAddScalar "duration" SClock n]
  ++ map (fun kv => EvAddScalar ("return_" +++ fst kv) (SFloat (snd kv)) n)
         return_per_episode
  ++ map (fun kv => EvAddScalar ("rreturn_" +++ fst kv) (SFloat (snd kv)) n)
         rreturn_per_episode
  ++ map (fun kv => EvAddScalar ("num_frames_" +++ fst kv) (SFloat (snd kv)) n)
         num_frames_per_episode
  ++ [EvAddScalar "entropy" (SFloat (log_entropy log)) n;
      EvAddScalar "value" (SFloat (log_value log)) n;
      EvAddScalar "policy_loss" (SFloat (log_policy_loss log)) n;
      EvAddScalar "value_loss" (SFloat (log_value_loss log)) n].

(** Lines 135-161: the body of [if i % args.log_interval == 0]; line 136
    divides by [update_end_time - update_start_time]. *)
Definition print_logs (a : Args Float) (n nf : Z) (log : Log Float)
  (update_start_time update_end_time : Q) : M Float unit :=
  py_truediv_defined (update_end_time - update_start_time)%Q ;;;
  let return_per_episode := synthesize L (log_return_per_episode log) in
  let rreturn_per_episode := synthesize L (log_reshaped_return_per_episode log) in
  let num_frames_per_episode := synthesize L (log_num_frames_per_episode log) in
  emit (EvLog (MsgMetrics n nf (map snd rreturn_per_episode)
                 (map snd num_frames_per_episode)
                 (log_entropy log) (log_value log)
                 (log_policy_loss log) (log_value_loss log)) true) ;;;
  when (negb (no_tb a))
    (emits (tb_scalars n nf log return_per_episode rreturn_per_episode
              num_frames_per_episode)).

(** Lines 166-172: the body of the save test. *)
Definition save_block (model_name : string) : M Float unit :=
  emit EvVocabSave ;;;
  when (cuda_is_available L) acmodel_cpu ;;;
  save_model model_name ;;;
  when (cuda_is_available L) acmodel_cuda.

(** Line 165: [args.save_interval > 0 and i % args.save_interval == 0]. *)
Definition save_due (a : Args Float) (n : Z) : M Float bool :=
  if save_interval a >? 0 then
    r <- py_mod n (save_interval a) ;; ret (r =? 0)
  else ret false.

(** Lines 123-172: one pass through the body of the [while]. *)
Definition iteration (a : Args Float) (model_name : string) (v : Vars)
  : M Float Vars :=
  update_start_time <- time_before ;;
  log <- algo_update_parameters ;;
  update_end_time <- time_after ;;
  let v' := {| num_frames := num_frames v + log_num_frames log; i := i v + 1 |} in
  r <- py_mod (i v') (log_interval a) ;;
  when (r =? 0)
    (print_logs a (i v') (num_frames v') log update_start_time update_end_time) ;;;
  b <- save_due a (i v') ;;
  when b (save_block model_name) ;;;
  ret v'.

(** Line 122: the [while], run for at most [fuel] passes. *)
Fixpoint train_loop (fuel : nat) (a : Args Float) (model_name : string) (v : Vars)
  : M Float Vars :=
  if num_frames v <? frames a then
    match fuel with
    | O => out_of_fuel
    | S fuel' =>
        v' <- iteration a model_name v ;;
        train_loop fuel' a model_name v'
    end
  else ret v.

(** Lines 118 and 120. *)
Definition vars0 : Vars := {| num_frames := 0; i := 0 |}.

(** Lines 65-172. *)
Definition main (fuel : nat) (a : Args Float) : M Float Vars :=
  model_name <- setup a ;;
  train_loop fuel a model_name vars0.

(** Lines 61-172: [parse_args] leaves the script with [SystemExit] on a
    command line it refuses. *)
Definition script (fuel : nat) : M Float Vars :=
  emit (EvParseArgs (sys_argv L)) ;;;
  match parse_args L (sys_argv L) with
  | None => raise SystemExit
  | Some a => main fuel a
  end.

End Script.

(** The world when the interpreter starts. *)
Definition world0 : World :=
  {| envs_made := 0; updates := 0; device := CPU |}.

(** ** Observations on a trace *)

Section Observations.

Context {Float : Type}.

Definition is_parse (e : Event Float) : bool :=
  match e with EvParseArgs _ => true | _ => false end.

Definition is_seed (e : Event Float) : bool :=
  match e with EvSeed _ => true | _ => false end.

Definition is_gym_make (e : Event Float) : bool :=
  match e with EvGymMake _ _ => true | _ => false end.

Definition is_env (e : Event Float) : bool :=
  match e with EvGymMake _ _ | EvEnvSeed _ _ => true | _ => false end.

Definition is_name (e : Event Float) : bool :=
  match e with EvStrftime => true | _ => false end.

Definition is_preprocessor (e : Event Float) : bool :=
  match e with EvObssPreprocessor _ _ => true | _ => false end.

Definition is_model (e : Event Float) : bool :=
  match e with EvLoadModel _ _ | EvModelCuda => true | _ => false end.

Definition is_algo (e : Event Float) : bool :=
  match e with EvAlgo _ => true | _ => false end.

Definition is_log_setup (e : Event Float) : bool :=
  match e with
  | EvLogger _ | EvSummaryWriter _ | EvLog (MsgCommand _) _ | EvLog MsgModel _ => true
  | _ => false
  end.

Definition is_update (e : Event Float) : bool :=
  match e with EvUpdateParameters _ => true | _ => false end.

Definition is_metrics (e : Event Float) : bool :=
  match e with EvLog (MsgMetrics _ _ _ _ _ _ _ _) _ => true | _ => false end.

Definition is_add_scalar (e : Event Float) : bool :=
  match e with EvAddScalar _ _ _ => true | _ => false end.


Definition is_vocab_save (e : Event Float) : bool :=
  match e with EvVocabSave => true | _ => false end.

Definition is_save_model (model_name : string) (e : Event Float) : bool :=
  match e with EvSaveModel n _ => String.eqb n model_name | _ => false end.

(** The calls made by the body of the [while]. *)
Definition is_loop (e : Event Float) : bool :=
  match e with
  | EvUpdateParameters _ | EvLog (MsgMetrics _ _ _ _ _ _ _ _) _ | EvAddScalar _ _ _
  | EvVocabSave | EvModelCpu | EvSaveModel _ _ | EvModelCuda => true
  | _ => false
  end.

(** The calls made by lines 65-114. *)
Definition is_before_loop (e : Event Float) : bool :=
  is_seed e || is_env e || is_name e || is_preprocessor e || is_model e
  || is_algo e || is_log_setup e.

(** The calls made by lines 135-161. *)
Definition is_print (e : Event Float) : bool :=
  is_metrics e || is_add_scalar e.

(** The algorithm objects constructed, in order. *)
Fixpoint algos_built (evs : list (Event Float)) : list (Algo Float) :=
  match evs with
  | [] => []
  | EvAlgo al :: rest => al :: algos_built rest
  | _ :: rest => algos_built rest
  end.

(** The number of calls of [algo.update_parameters()]. *)
Definition count_updates (evs : list (Event Float)) : nat :=
  List.length (filter is_update evs).

(** The metrics line was handed to [logger.log]. *)
Definition logs_metrics (evs : list (Event Float)) : bool :=
  existsb is_metrics evs.

(** Some [writer.add_scalar] was called. *)
Definition writes_scalars (evs : list (Event Float)) : bool :=
  existsb is_add_scalar evs.

(** The vocabulary was saved and the model was saved under [model_name]. *)
Definition checkpointed (model_name : string) (evs : list (Event Float)) : bool :=
  existsb is_vocab_save evs && existsb (is_save_model model_name) evs.

(** Some part of a checkpoint was written. *)
Definition touches_checkpoint (evs : list (Event Float)) : bool :=
  existsb (fun e => match e with EvVocabSave | EvSaveModel _ _ => true | _ => false end) evs.

(** [evs] splits into consecutive groups, the [n]-th made only of events
    accepted by the [n]-th test of [stages]; a group may be empty. *)
Fixpoint in_stages (stages : list (Event Float -> bool)) (evs : list (Event Float))
  : Prop :=
  match stages with
  | [] => evs = []
  | p :: stages' =>
      exists g rest,
        evs = g ++ rest /\ forallb p g = true /\ in_stages stages' rest
  end.

(** The steps of the script, in the order of the source text. *)
Definition script_stages : list (Event Float -> bool) :=
  [is_parse; is_seed; is_env; is_name; is_preprocessor; is_model; is_algo;
   is_log_setup; is_loop].

Variable L : Libs Float.
Variable a : Args Float.

(** The instances built by lines 69-73 when [m] instances exist already
    and the loop variable ranges over [ns], and the calls that build them. *)
Fixpoint new_envs (m : nat) (ns : list Z) : list EnvObj :=
  match ns with
  | [] => []
  | n :: rest =>
      {| env_id := m; env_name := env a; env_seeded := Some (seed a + n) |}
        :: new_envs (S m) rest
  end.

Fixpoint env_trace (m : nat) (ns : list Z) : list (Event Float) :=
  match ns with
  | [] => []
  | n :: rest =>
      EvGymMake m (env a) :: EvEnvSeed m (seed a + n) :: env_trace (S m) rest
  end.

(** The frames reported by the first [k] updates. *)
Fixpoint frames_after (k : nat) : Z :=
  match k with
  | O => 0
  | S k' => frames_after k' + log_num_frames (update_parameters L (S k'))
  end.

(** Closed forms of what lines 65-114 do from a world [w], used to state
    the run of [setup]: the first instance, the world left behind, the calls
    up to the choice of the algorithm, and the calls after it. *)
Definition first_env (w : World) : EnvObj :=
  {| env_id := envs_made w; env_name := env a; env_seeded := Some (seed a + 0) |}.

Definition setup_world (w : World) : World :=
  {| envs_made := envs_made w + Z.to_nat (procs a);
     updates := updates w;
     device := if cuda_is_available L then CUDA else CPU |}.

Definition setup_prefix (w : World) : list (Event Float) :=
  let model_name := model_name_of a (strftime_now L) in
  EvSeed (seed a)
    :: env_trace (envs_made w) (py_range (procs a))
    ++ [EvStrftime;
        EvObssPreprocessor model_name (first_env w);
        EvLoadModel model_name (first_env w)]
    ++ (if cuda_is_available L then [EvModelCuda] else []).

Definition setup_suffix : list (Event Float) :=
  let log_name := log_name_of a (strftime_now L) in
  EvLogger log_name
    :: (if no_tb a then [] else [EvSummaryWriter log_name])
    ++ [EvLog (MsgCommand (sys_argv L)) false; EvLog MsgModel true].

(** Closed forms of one pass of the loop body: the tests of lines 134 and
    165 when they do not raise, and the calls of the two guarded blocks. *)
Definition log_due (n : Z) : bool := n mod log_interval a =? 0.

Definition save_test (n : Z) : bool :=
  (save_interval a >? 0) && (n mod save_interval a =? 0).

Definition print_trace (n nf : Z) (log : Log Float) : list (Event Float) :=
  EvLog (MsgMetrics n nf
           (map snd (synthesize L (log_reshaped_return_per_episode log)))
           (map snd (synthesize L (log_num_frames_per_episode log)))
           (log_entropy log) (log_value log)
           (log_policy_loss log) (log_value_loss log)) true
    :: (if no_tb a then []
        else tb_scalars n nf log
               (synthesize L (log_return_per_episode log))
               (synthesize L (log_reshaped_return_per_episode log))
               (synthesize L (log_num_frames_per_episode log))).

Definition save_trace (model_name : string) (d : Device) : list (Event Float) :=
  EvVocabSave
    :: (if cuda_is_available L
        then [EvModelCpu; EvSaveModel model_name CPU; EvModelCuda]
        else [EvSaveModel model_name d]).

(** Line 136 raises in the pass of the [j]-th update: the two readings
    around it are equal. *)
Definition fps_undefined (j : nat) : bool :=
  Qeq_bool (time_after_update L j - time_before_update L j) 0.

(** The pass that makes the [j]-th update and brings [i] to [n] raises
    before the save test: at line 134 or, when the log is due, at line 136. *)
Definition pass_stops (n : Z) (j : nat) : bool :=
  (log_interval a =? 0) || (log_due n && fps_undefined j).



(** [at_head model_name k w v]: the script, started in [world0], has set up
    under [model_name], has completed [k] passes of the loop body, and is
    about to test [num_frames < args.frames] in world [w] with counters [v]. *)
Inductive at_head (model_name : string) : nat -> World -> Vars -> Prop :=
| head_first :
    out (setup L a world0) = Ok model_name ->
    at_head model_name O (final (setup L a world0)) vars0
| head_next k w v v' :
    at_head model_name k w v ->
    num_frames v < frames a ->
    out (iteration L a model_name v w) = Ok v' ->
    at_head model_name (S k) (final (iteration L a model_name v w)) v'.

(** The test of line 134 evaluates to [True]. *)
Definition log_test_holds (n : Z) : Prop :=
  log_interval a <> 0 /\ n mod log_interval a = 0.

(** ** The statements under study, over one run *)

(** The algorithm object follows [args.algo]; any other value raises
    [ValueError] with no update run. *)
Definition algo_selected (fuel : nat) (w : World) : Prop :=
  let r := main L fuel a w in
  (algo a = "a2c" ->
     exists envs,
       algos_built (events r) =
         [A2CAlgo envs (frames_per_proc a) (discount a) (lr a) (gae_tau a)
            (entropy_coef a) (value_loss_coef a) (max_grad_norm a)
            (recurrence a) (optim_alpha a) (optim_eps a)])
  /\ (algo a = "ppo" ->
     exists envs,
       algos_built (events r) =
         [PPOAlgo envs (frames_per_proc a) (discount a) (lr a) (gae_tau a)
            (entropy_coef a) (value_loss_coef a) (max_grad_norm a)
            (recurrence a) (optim_eps a) (clip_eps a) (epochs a) (batch_size a)])
  /\ (algo a <> "a2c" -> algo a <> "ppo" ->
     out r = Raise ValueError /\ count_updates (events r) = O
     /\ algos_built (events r) = []).





(** Neither counter goes down from one loop head to the next. *)
Definition counters_monotone (model_name : string) : Prop :=
  forall k w v v',
    at_head model_name k w v -> num_frames v < frames a ->
    out (iteration L a model_name v w) = Ok v' ->
    i v <= i v' /\ num_frames v <= num_frames v'.

(** The counters count the passes and add up the reported frames. *)
Definition counters_track (model_name : string) : Prop :=
  forall k w v,
    at_head model_name k w v ->
    i v = Z.of_nat k /\ num_frames v = frames_after k /\ updates w = k.

End Observations.


(** ** Sample runs *)

Definition ex_log (n : Z) : Log unit :=
  {| log_num_frames := n;
     log_return_per_episode := [tt];
     log_reshaped_return_per_episode := [tt];
     log_num_frames_per_episode := [tt];
     log_entropy := tt; log_value := tt;
     log_policy_loss := tt; log_value_loss := tt |}.

(** A namespace with the parser's defaults for the options not listed. *)
Definition ex_args (al : string) (m : option string) (p f li si : Z) (tb : bool)
  : Args unit :=
  {| algo := al; env := "E"; model := m; seed := 1; procs := p; frames := f;
     log_interval := li; save_interval := si; no_tb := tb;
     frames_per_proc := None; discount := tt; lr := tt; gae_tau := tt;
     entropy_coef := tt; value_loss_coef := tt; max_grad_norm := tt;
     recurrence := 1; optim_eps := tt; optim_alpha := tt; clip_eps := tt;
     epochs := 4; batch_size := 256 |}.

(** Libraries whose every update reports [nf] frames and takes one second,
    parsing the command line to [a]. *)
Definition ex_libs (cuda : bool) (nf : Z) (a : option (Args unit)) : Libs unit :=
  {| sys_argv := ["train.py"];
     parse_args := fun _ => a;
     strftime_now := "T";
     cuda_is_available := cuda;
     checkpoint_device := CPU;
     update_parameters := fun _ => ex_log nf;
     time_before_update := fun _ => 0%Q;
     time_after_update := fun _ => 1%Q;
     synthesize := fun _ => [("mean", tt); ("std", tt); ("min", tt); ("max", tt)] |}.

(** A run on CUDA with two environments, a log every second update and a
    save after every update; every update reports two frames. *)
Definition run_args : Args unit := ex_args "ppo" None 2 4 2 1 false.

Definition run_libs : Libs unit := ex_libs true 2 (Some run_args).

Definition run_name : string := "E_ppo_T".


(** [--log-interval 0] with a save due after every update. *)
Definition nolog_args : Args unit := ex_args "a2c" None 1 10 0 1 false.

Definition nolog_libs : Libs unit := ex_libs false 1 (Some nolog_args).




(** Updates that report a negative frame count. *)
Definition back_args : Args unit := ex_args "a2c" None 1 10 1 0 false.

Definition back_libs : Libs unit := ex_libs false (-1) (Some back_args).

(** ** Further observations *)

Section MoreObservations.

Context {Float : Type}.

(** The environments handed to the constructor of an algorithm object. *)
Definition algo_envs (al : Algo Float) : list EnvObj :=
  match al with
  | A2CAlgo envs _ _ _ _ _ _ _ _ _ _ => envs
  | PPOAlgo envs _ _ _ _ _ _ _ _ _ _ _ _ => envs
  end.

(** The arguments of the [env.seed] calls, in order. *)
Fixpoint seeds_given (evs : list (Event Float)) : list Z :=
  match evs with
  | [] => []
  | EvEnvSeed _ s :: rest => s :: seeds_given rest
  | _ :: rest => seeds_given rest
  end.

Definition is_model_saved (e : Event Float) : bool :=
  match e with EvSaveModel _ _ => true | _ => false end.

(** The number of metrics lines handed to [logger.log]. *)
Definition count_metrics (evs : list (Event Float)) : nat :=
  List.length (filter is_metrics evs).

(** The number of [utils.save_model] calls. *)
Definition count_saves (evs : list (Event Float)) : nat :=
  List.length (filter is_model_saved evs).

(** The name part of lines 78 and 106 that precedes the timestamp. *)
Definition base_name (a : Args Float) : string :=
  match model a with
  | Some m => m
  | None => env a +++ "_" +++ algo a
  end.

End MoreObservations.

(** A run on the CPU that logs every second and saves every third update,
    each update reporting three frames, until ten frames are seen. *)
Definition long_args : Args unit := ex_args "a2c" (Some "m") 3 10 2 3 false.

Definition long_libs : Libs unit := ex_libs false 3 (Some long_args).

(** Runs that stop before the loop, and a run asked for no frames. *)
Definition noenv_args : Args unit := ex_args "a2c" None 0 10 1 0 false.

Definition noalgo_args : Args unit := ex_args "dqn" None 2 10 1 0 false.

Definition noframes_args : Args unit := ex_args "ppo" None 2 0 0 1 false.

(** ** Properties *)

Section Properties.

Context {Float : Type}.
Variable L : Libs Float.
Variable a : Args Float.

(** ** The effect layer *)

Lemma bind_out {A B} (m : M Float A) (f : A -> M Float B) (w : World) :
  out (bind m f w) =
    match out (m w) with
    | Ok x => out (f x (final (m w)))
    | Raise e => Raise e
    | OutOfFuel => OutOfFuel
    end.
Proof.
  unfold bind. destruct (m w) as [[x|e|] evs w1]; cbn; try reflexivity.
  destruct (f x w1); reflexivity.
Qed.

Lemma world_eta (w : World) :
  {| envs_made := envs_made w; updates := updates w; device := device w |} = w.
Proof. destruct w; reflexivity. Qed.

(** ** Lines 69-73 *)

Lemma for_envs_run (ns : list Z) :
  forall envs w,
    for_envs a ns envs w =
      {| out := Ok (envs ++ new_envs a (envs_made w) ns);
         events := env_trace a (envs_made w) ns;
         final := {| envs_made := envs_made w + List.length ns;
                     updates := updates w; device := device w |} |}.
Proof.
  induction ns as [|n rest IH]; intros envs w.
  - cbn. rewrite app_nil_r, Nat.add_0_r, world_eta. reflexivity.
  - cbn. rewrite IH. cbn. rewrite <- app_assoc. cbn.
    rewrite Nat.add_succ_r. reflexivity.
Qed.

Lemma py_range_length (n : Z) : List.length (py_range n) = Z.to_nat n.
Proof. unfold py_range. rewrite length_map, length_seq. reflexivity. Qed.

Lemma make_envs_run (w : World) :
  make_envs a w =
    {| out := Ok (new_envs a (envs_made w) (py_range (procs a)));
       events := env_trace a (envs_made w) (py_range (procs a));
       final := {| envs_made := envs_made w + Z.to_nat (procs a);
                   updates := updates w; device := device w |} |}.
Proof.
  unfold make_envs. rewrite for_envs_run, py_range_length. reflexivity.
Qed.

Lemma py_range_nil (n : Z) : n <= 0 -> py_range n = [].
Proof.
  intros H. unfold py_range.
  replace (Z.to_nat n) with O by lia. reflexivity.
Qed.

Lemma py_range_cons (n : Z) :
  1 <= n -> py_range n = 0 :: map Z.of_nat (seq 1 (Z.to_nat n - 1)).
Proof.
  intros H. unfold py_range.
  replace (Z.to_nat n) with (S (Z.to_nat n - 1)) at 1 by lia. reflexivity.
Qed.

(** ** Lines 65-114 *)

Lemma setup_run_no_env (w : World) :
  procs a <= 0 ->
  setup L a w =
    {| out := Raise IndexError;
       events := [EvSeed (seed a); EvStrftime];
       final := w |}.
Proof.
  intros H. unfold setup, utils_seed, now_strftime.
  unfold bind at 1. cbn [emit].
  unfold bind at 1. rewrite make_envs_run.
  rewrite (py_range_nil _ H). cbn.
  replace (Z.to_nat (procs a)) with O by lia.
  rewrite Nat.add_0_r, world_eta. reflexivity.
Qed.

Lemma setup_run (w : World) :
  1 <= procs a ->
  setup L a w =
    match out (make_algo a (new_envs a (envs_made w) (py_range (procs a))) w) with
    | Ok _ =>
        {| out := Ok (model_name_of a (strftime_now L));
           events :=
             setup_prefix L a w
             ++ events (make_algo a (new_envs a (envs_made w) (py_range (procs a))) w)
             ++ setup_suffix L a;
           final := setup_world L a w |}
    | Raise e =>
        {| out := Raise e; events := setup_prefix L a w; final := setup_world L a w |}
    | OutOfFuel =>
        {| out := OutOfFuel; events := setup_prefix L a w;
           final := setup_world L a w |}
    end.
Proof.
  intros H. unfold setup, utils_seed, now_strftime, setup_prefix, setup_suffix,
    setup_world, first_env.
  unfold bind at 1. cbn [emit].
  unfold bind at 1. rewrite make_envs_run.
  rewrite (py_range_cons _ H). cbn [new_envs env_trace].
  unfold make_algo, load_model, acmodel_cuda, when.
  destruct (cuda_is_available L), (String.eqb (algo a) "a2c"),
    (String.eqb (algo a) "ppo"), (no_tb a); cbn;
    rewrite <- ?app_assoc; reflexivity.
Qed.

(** ** Lines 123-172 *)

Lemma pass_stops_zero (n : Z) (j : nat) :
  log_interval a = 0 -> pass_stops L a n j = true.
Proof. intros H. unfold pass_stops. rewrite H. reflexivity. Qed.

Lemma pass_runs_nonzero (n : Z) (j : nat) :
  pass_stops L a n j = false -> log_interval a <> 0.
Proof.
  unfold pass_stops. intros H. apply orb_false_elim in H. destruct H as [H _].
  apply Z.eqb_neq. exact H.
Qed.



Lemma iteration_raises (model_name : string) (v : Vars) (w : World) :
  pass_stops L a (i v + 1) (S (updates w)) = true ->
  iteration L a model_name v w =
    {| out := Raise ZeroDivisionError;
       events := [EvUpdateParameters (S (updates w))];
       final := {| envs_made := envs_made w; updates := S (updates w);
                   device := device w |} |}.
Proof.
  unfold pass_stops, log_due, fps_undefined. intros H.
  unfold iteration, time_before, time_after, algo_update_parameters, py_mod,
    print_logs, py_truediv_defined, when.
  destruct (log_interval a =? 0) eqn:E0; [reflexivity|].
  cbn [orb] in H. apply andb_prop in H. destruct H as [E1 E2].
  repeat (cbn -[Qminus Qeq_bool Z.modulo Z.eqb]; rewrite ?E1, ?E2).
  reflexivity.
Qed.

Lemma iteration_run (model_name : string) (v : Vars) (w : World) :
  pass_stops L a (i v + 1) (S (updates w)) = false ->
  iteration L a model_name v w =
    let log := update_parameters L (S (updates w)) in
    let v' := {| num_frames := num_frames v + log_num_frames log; i := i v + 1 |} in
    {| out := Ok v';
       events :=
         EvUpdateParameters (S (updates w))
           :: (if log_due a (i v') then print_trace L a (i v') (num_frames v') log
               else [])
           ++ (if save_test a (i v') then save_trace L model_name (device w)
               else []);
       final :=
         {| envs_made := envs_made w; updates := S (updates w);
            device := if save_test a (i v') && cuda_is_available L
                      then CUDA else device w |} |}.
Proof.
  unfold pass_stops, log_due, fps_undefined. intros H.
  apply orb_false_elim in H. destruct H as [H Hf].
  unfold iteration, time_before, time_after, algo_update_parameters, py_mod,
    save_due, py_mod, save_test, log_due, print_logs, py_truediv_defined,
    save_block, save_model, acmodel_cpu, acmodel_cuda, print_trace, save_trace, when.
  assert (Hz : (save_interval a >? 0) = true -> (save_interval a =? 0) = false).
  { intros Hs. apply Z.eqb_neq. apply Z.gtb_lt in Hs. lia. }
  destruct ((i v + 1) mod log_interval a =? 0) eqn:E1,
    (save_interval a >? 0) eqn:Hs,
    ((i v + 1) mod save_interval a =? 0) eqn:E2,
    (cuda_is_available L), (no_tb a);
    cbn [andb] in Hf;
    try rewrite (Hz eq_refl);
    repeat (cbn -[Qminus Qeq_bool Z.modulo Z.eqb]; rewrite ?H, ?E1, ?E2, ?Hf);
    rewrite ?app_nil_r; reflexivity.
Qed.

(** ** Traces made of one kind of call *)

Lemma bind_events {A B} (m : M Float A) (f : A -> M Float B) (w : World) :
  events (bind m f w) =
    events (m w)
    ++ match out (m w) with
       | Ok x => events (f x (final (m w)))
       | _ => []
       end.
Proof.
  unfold bind. destruct (m w) as [[x|e|] evs w1]; cbn.
  - destruct (f x w1); reflexivity.
  - rewrite app_nil_r; reflexivity.
  - rewrite app_nil_r; reflexivity.
Qed.

Lemma forallb_weaken (p q : Event Float -> bool) (l : list (Event Float)) :
  (forall e, q e = true -> p e = true) ->
  forallb q l = true -> forallb p l = true.
Proof.
  intros Hpq H. rewrite forallb_forall in *. auto.
Qed.

Lemma existsb_none (p q : Event Float -> bool) (l : list (Event Float)) :
  (forall e, q e = true -> p e = false) ->
  forallb q l = true -> existsb p l = false.
Proof.
  intros Hpq H. rewrite forallb_forall in H.
  induction l as [|e l IH]; cbn; [reflexivity|].
  rewrite (Hpq e) by (apply H; left; reflexivity).
  apply IH. intros x Hx. apply H. right. exact Hx.
Qed.

Lemma filter_none (p q : Event Float -> bool) (l : list (Event Float)) :
  (forall e, q e = true -> p e = false) ->
  forallb q l = true -> filter p l = [].
Proof.
  intros Hpq H. rewrite forallb_forall in H.
  induction l as [|e l IH]; cbn; [reflexivity|].
  rewrite (Hpq e) by (apply H; left; reflexivity).
  apply IH. intros x Hx. apply H. right. exact Hx.
Qed.

Lemma filter_all (p : Event Float -> bool) (l : list (Event Float)) :
  forallb p l = true -> filter p l = l.
Proof.
  induction l as [|e l IH]; cbn; [reflexivity|].
  intros H. apply andb_prop in H. destruct H as [He Hl].
  rewrite He, IH by exact Hl. reflexivity.
Qed.

Lemma algos_built_app (l1 l2 : list (Event Float)) :
  algos_built (l1 ++ l2) = algos_built l1 ++ algos_built l2.
Proof.
  induction l1 as [|e l1 IH]; cbn; [reflexivity|].
  destruct e; cbn; rewrite IH; reflexivity.
Qed.

Lemma algos_built_none (q : Event Float -> bool) (l : list (Event Float)) :
  (forall e, q e = true -> is_algo e = false) ->
  forallb q l = true -> algos_built l = [].
Proof.
  intros Hq H. rewrite forallb_forall in H.
  induction l as [|e l IH]; cbn; [reflexivity|].
  assert (He : is_algo e = false) by (apply Hq, H; left; reflexivity).
  assert (Hl : algos_built l = []) by (apply IH; intros x Hx; apply H; right; exact Hx).
  destruct e; cbn in *; try exact Hl; discriminate.
Qed.

Lemma count_updates_app (l1 l2 : list (Event Float)) :
  count_updates (l1 ++ l2) = (count_updates l1 + count_updates l2)%nat.
Proof. unfold count_updates. rewrite filter_app, length_app. reflexivity. Qed.

Lemma tb_scalars_all (n nf : Z) (log : Log Float) (r rr nfe : list (string * Float)) :
  forallb is_add_scalar (tb_scalars n nf log r rr nfe) = true.
Proof.
  unfold tb_scalars. rewrite !forallb_app. cbn.
  rewrite !andb_true_r, !andb_true_iff.
  repeat split; apply forallb_forall; intros e He;
    apply in_map_iff in He; destruct He as [kv [<- _]]; reflexivity.
Qed.

Lemma env_trace_all (m : nat) (ns : list Z) :
  forallb is_env (env_trace a m ns) = true.
Proof.
  revert m. induction ns as [|n rest IH]; intros m; cbn; [reflexivity|apply IH].
Qed.

Lemma env_trace_range (m n : nat) :
  env_trace a m (map Z.of_nat (seq m n)) =
    flat_map (fun j => [EvGymMake j (env a); EvEnvSeed j (seed a + Z.of_nat j)])
             (seq m n).
Proof.
  revert m. induction n as [|n IH]; intros m; cbn; [reflexivity|].
  rewrite IH. reflexivity.
Qed.

Lemma print_trace_loop (n nf : Z) (log : Log Float) :
  forallb is_loop (print_trace L a n nf log) = true.
Proof.
  unfold print_trace. cbn. destruct (no_tb a); [reflexivity|].
  apply forallb_weaken with (q := is_add_scalar).
  - intros [] He; try discriminate; reflexivity.
  - apply tb_scalars_all.
Qed.

Lemma save_trace_loop (model_name : string) (d : Device) :
  forallb is_loop (save_trace L model_name d) = true.
Proof. unfold save_trace. destruct (cuda_is_available L); reflexivity. Qed.

Lemma iteration_loop (model_name : string) (v : Vars) (w : World) :
  forallb is_loop (events (iteration L a model_name v w)) = true.
Proof.
  destruct (pass_stops L a (i v + 1) (S (updates w))) eqn:H.
  - rewrite (iteration_raises _ _ _ H). reflexivity.
  - rewrite (iteration_run _ _ _ H). cbn [events]. cbn [forallb is_loop andb].
    rewrite forallb_app.
    destruct (log_due a _), (save_test a _); cbn [forallb andb];
      rewrite ?print_trace_loop, ?save_trace_loop; reflexivity.
Qed.

Lemma train_loop_forall (p : Event Float -> bool) (model_name : string) :
  (forall v w, forallb p (events (iteration L a model_name v w)) = true) ->
  forall fuel v w,
    forallb p (events (train_loop L fuel a model_name v w)) = true.
Proof.
  intros Hp. induction fuel as [|fuel IH]; intros v w; cbn [train_loop].
  - destruct (num_frames v <? frames a); reflexivity.
  - destruct (num_frames v <? frames a); [|reflexivity].
    rewrite bind_events, forallb_app, Hp.
    destruct (out (iteration L a model_name v w)); cbn; auto.
Qed.

Lemma train_loop_loop (model_name : string) (fuel : nat) (v : Vars) (w : World) :
  forallb is_loop (events (train_loop L fuel a model_name v w)) = true.
Proof. apply train_loop_forall. apply iteration_loop. Qed.

Lemma print_trace_print (n nf : Z) (log : Log Float) :
  forallb is_print (print_trace L a n nf log) = true.
Proof.
  unfold print_trace. cbn. destruct (no_tb a); [reflexivity|].
  apply forallb_weaken with (q := is_add_scalar).
  - intros [] He; try discriminate; reflexivity.
  - apply tb_scalars_all.
Qed.

(** ** The loop and its heads *)

Lemma train_loop_done (model_name : string) (fuel : nat) (v : Vars) (w : World) :
  frames a <= num_frames v ->
  train_loop L fuel a model_name v w = ret v w.
Proof.
  intros H. apply Z.ltb_ge in H.
  destruct fuel; cbn [train_loop]; rewrite H; reflexivity.
Qed.

Lemma train_loop_step (model_name : string) (fuel : nat) (v : Vars) (w : World) :
  num_frames v < frames a ->
  train_loop L (S fuel) a model_name v w =
    bind (iteration L a model_name v) (train_loop L fuel a model_name) w.
Proof.
  intros H. apply Z.ltb_lt in H. cbn [train_loop]. rewrite H. reflexivity.
Qed.

Lemma setup_ok_inv (model_name : string) (w : World) :
  out (setup L a w) = Ok model_name ->
  1 <= procs a
  /\ model_name = model_name_of a (strftime_now L)
  /\ final (setup L a w) = setup_world L a w.
Proof.
  intros H. destruct (Z_le_gt_dec (procs a) 0) as [Hp|Hp].
  - rewrite (setup_run_no_env _ Hp) in H. discriminate.
  - assert (Hp' : 1 <= procs a) by lia.
    rewrite (setup_run _ Hp') in *.
    destruct (out (make_algo a _ w)); cbn in *; try discriminate.
    injection H as <-. auto.
Qed.

Lemma iteration_ok_inv (model_name : string) (v v' : Vars) (w : World) :
  out (iteration L a model_name v w) = Ok v' ->
  log_interval a <> 0
  /\ v' = {| num_frames :=
               num_frames v + log_num_frames (update_parameters L (S (updates w)));
             i := i v + 1 |}.
Proof.
  intros H. destruct (pass_stops L a (i v + 1) (S (updates w))) eqn:Hz.
  - rewrite (iteration_raises _ _ _ Hz) in H. discriminate.
  - rewrite (iteration_run _ _ _ Hz) in H. cbn in H. injection H as <-.
    split; [apply (pass_runs_nonzero _ _ Hz)|reflexivity].
Qed.

Lemma iteration_ok_runs (model_name : string) (v v' : Vars) (w : World) :
  out (iteration L a model_name v w) = Ok v' ->
  pass_stops L a (i v + 1) (S (updates w)) = false.
Proof.
  intros H. destruct (pass_stops L a (i v + 1) (S (updates w))) eqn:Hz;
    [|reflexivity].
  rewrite (iteration_raises _ _ _ Hz) in H. discriminate.
Qed.

Lemma at_head_inv (model_name : string) (k : nat) (w : World) (v : Vars) :
  at_head L a model_name k w v ->
  i v = Z.of_nat k
  /\ num_frames v = frames_after L k
  /\ updates w = k
  /\ device w = (if cuda_is_available L then CUDA else CPU).
Proof.
  induction 1 as [Hs|k w v v' Hh IH Hlt Hit].
  - destruct (setup_ok_inv _ _ Hs) as (_ & _ & ->). cbn. auto.
  - destruct IH as (Hi & Hn & Hu & Hd).
    destruct (iteration_ok_inv _ _ _ _ Hit) as (_ & ->).
    rewrite (iteration_run _ _ _ (iteration_ok_runs _ _ _ _ Hit)).
    cbn [final i num_frames updates device].
    rewrite Hi, Hn, Hu, Hd. repeat split.
    + lia.
    + destruct (save_test a _), (cuda_is_available L); reflexivity.
Qed.


(** ** The whole run *)

Lemma make_algo_run (envs : list EnvObj) (w : World) :
  (exists al,
     make_algo a envs w = {| out := Ok al; events := [EvAlgo al]; final := w |}
     /\ (String.eqb (algo a) "a2c" = true \/ String.eqb (algo a) "ppo" = true))
  \/ (make_algo a envs w = {| out := Raise ValueError; events := []; final := w |}
      /\ String.eqb (algo a) "a2c" = false /\ String.eqb (algo a) "ppo" = false).
Proof.
  unfold make_algo.
  destruct (String.eqb (algo a) "a2c"); [left; eexists; split; [reflexivity|auto]|].
  destruct (String.eqb (algo a) "ppo"); [left; eexists; split; [reflexivity|auto]|].
  right. auto.
Qed.

Lemma main_run (fuel : nat) (w : World) :
  1 <= procs a ->
  let envs := new_envs a (envs_made w) (py_range (procs a)) in
  let loop :=
    train_loop L fuel a (model_name_of a (strftime_now L)) vars0 (setup_world L a w) in
  match out (make_algo a envs w) with
  | Ok al =>
      events (main L fuel a w) =
        setup_prefix L a w ++ [EvAlgo al] ++ setup_suffix L a ++ events loop
      /\ out (main L fuel a w) = out loop
  | _ =>
      events (main L fuel a w) = setup_prefix L a w
      /\ out (main L fuel a w) = Raise ValueError
  end.
Proof.
  intros Hp envs loop. unfold main.
  rewrite bind_events, bind_out, (setup_run _ Hp). fold envs.
  destruct (make_algo_run envs w) as [(al & -> & _)|(-> & _)]; cbn [out events final].
  - fold loop. rewrite <- !app_assoc. auto.
  - rewrite app_nil_r. auto.
Qed.

Lemma setup_prefix_env (w : World) :
  filter is_env (setup_prefix L a w) = env_trace a (envs_made w) (py_range (procs a)).
Proof.
  unfold setup_prefix. cbn [filter is_env]. rewrite !filter_app.
  rewrite (filter_all _ _ (env_trace_all _ _)).
  destruct (cuda_is_available L); cbn; rewrite app_nil_r; reflexivity.
Qed.

Lemma setup_suffix_log_setup : forallb is_log_setup (setup_suffix L a) = true.
Proof. unfold setup_suffix. destruct (no_tb a); reflexivity. Qed.

Lemma setup_prefix_quiet (w : World) :
  algos_built (setup_prefix L a w) = []
  /\ count_updates (setup_prefix L a w) = O.
Proof.
  unfold setup_prefix, count_updates. cbn [algos_built filter is_update].
  rewrite !algos_built_app, !filter_app.
  rewrite (algos_built_none is_env) by (apply env_trace_all || (intros []; easy)).
  rewrite (filter_none is_update is_env) by (apply env_trace_all || (intros []; easy)).
  destruct (cuda_is_available L); auto.
Qed.

Lemma loop_quiet (model_name : string) (fuel : nat) (v : Vars) (w : World) :
  algos_built (events (train_loop L fuel a model_name v w)) = []
  /\ filter is_env (events (train_loop L fuel a model_name v w)) = [].
Proof.
  split.
  - apply (algos_built_none is_loop); [intros []; easy|apply train_loop_loop].
  - apply (filter_none is_env is_loop); [|apply train_loop_loop].
    intros [] He; try discriminate; reflexivity.
Qed.

Lemma setup_suffix_quiet :
  algos_built (setup_suffix L a) = [] /\ filter is_env (setup_suffix L a) = [].
Proof. unfold setup_suffix. destruct (no_tb a); auto. Qed.

Lemma append_empty (s : string) : s +++ "" = s.
Proof. induction s as [|c s IH]; cbn; [reflexivity|]. f_equal. exact IH. Qed.

Lemma append_assoc (s t u : string) : s +++ (t +++ u) = s +++ t +++ u.
Proof. induction s as [|c s IH]; cbn; [reflexivity|]. f_equal. exact IH. Qed.

Lemma log_name_default (suffix : string) :
  model a = None ->
  model_name_of a suffix = env a +++ "_" +++ algo a +++ "_" +++ suffix
  /\ log_name_of a suffix = model_name_of a suffix.
Proof.
  intros H. unfold log_name_of, model_name_of. rewrite H. cbn [py_or].
  split; [reflexivity|apply append_empty].
Qed.

Lemma log_name_model_given (m suffix : string) :
  model a = Some m -> m <> "" ->
  model_name_of a suffix = m
  /\ log_name_of a suffix = m +++ "_" +++ suffix.
Proof.
  intros H Hm. apply String.eqb_neq in Hm.
  unfold log_name_of, model_name_of. rewrite H. cbn [py_or]. rewrite Hm.
  split; [reflexivity|apply append_assoc].
Qed.

(** ** The claims *)

(** C1, amended: for every parsed argument set with [procs >= 1], the script
    constructs exactly one algorithm object, an A2C one built from the parsed
    hyper-parameters when [args.algo] is "a2c" and a PPO one when it is
    "ppo"; for every other value it raises [ValueError] having constructed no
    algorithm object and run no update. *)
Theorem algo_follows_flag (fuel : nat) (w : World) :
  1 <= procs a -> algo_selected L a fuel w.
Proof.
  intros Hp. unfold algo_selected. cbv zeta.
  pose proof (main_run fuel w Hp) as Hm. cbv zeta in Hm.
  destruct (setup_prefix_quiet w) as [Hpa Hpu].
  destruct setup_suffix_quiet as [Hsa _].
  repeat split.
  - intros Ha. unfold make_algo in Hm. rewrite Ha in Hm. cbn [String.eqb Ascii.eqb
      Bool.eqb out] in Hm. destruct Hm as [-> _].
    eexists. rewrite !algos_built_app, Hpa, Hsa.
    rewrite (proj1 (loop_quiet _ _ _ _)). reflexivity.
  - intros Ha. unfold make_algo in Hm. rewrite Ha in Hm. cbn [String.eqb Ascii.eqb
      Bool.eqb out] in Hm. destruct Hm as [-> _].
    eexists. rewrite !algos_built_app, Hpa, Hsa.
    rewrite (proj1 (loop_quiet _ _ _ _)). reflexivity.
  - unfold make_algo in Hm. apply String.eqb_neq in H, H0. rewrite H, H0 in Hm.
    apply Hm.
  - unfold make_algo in Hm. apply String.eqb_neq in H, H0. rewrite H, H0 in Hm.
    destruct Hm as [-> _]. exact Hpu.
  - unfold make_algo in Hm. apply String.eqb_neq in H, H0. rewrite H, H0 in Hm.
    destruct Hm as [-> _]. exact Hpa.
Qed.

(** C2: for every parsed argument set with [procs >= 1], the calls that build
    environments are, for [j] from 0 to [procs - 1] in this order,
    [gym.make(args.env)] giving the [j]-th instance followed by the seeding
    of that instance with [args.seed + j]; [gym.make] is called exactly
    [procs] times. *)
Theorem envs_built (fuel : nat) :
  1 <= procs a ->
  filter is_env (events (main L fuel a world0)) =
    flat_map (fun j => [EvGymMake j (env a); EvEnvSeed j (seed a + Z.of_nat j)])
             (seq 0 (Z.to_nat (procs a)))
  /\ Z.of_nat (List.length (filter is_gym_make (events (main L fuel a world0))))
     = procs a.
Proof.
  intros Hp.
  assert (He : filter is_env (events (main L fuel a world0)) =
               env_trace a 0 (py_range (procs a))).
  { pose proof (main_run fuel world0 Hp) as Hm. cbv zeta in Hm.
    destruct (out (make_algo a _ world0)); destruct Hm as [-> _];
      rewrite ?filter_app, ?setup_prefix_env; try reflexivity.
    rewrite (proj2 setup_suffix_quiet), (proj2 (loop_quiet _ _ _ _)).
    cbn. rewrite app_nil_r. reflexivity. }
  unfold py_range in He. rewrite env_trace_range in He. split; [exact He|].
  assert (Hg : forall evs : list (Event Float),
             filter is_gym_make evs = filter is_gym_make (filter is_env evs)).
  { induction evs as [|e evs IH]; [reflexivity|].
    destruct e; cbn; rewrite <- ?IH; reflexivity. }
  rewrite Hg, He.
  assert (Hl : forall m n,
             List.length
               (filter is_gym_make
                  (flat_map
                     (fun j => [EvGymMake (Float := Float) j (env a);
                                EvEnvSeed j (seed a + Z.of_nat j)])
                     (seq m n))) = n).
  { intros m n. revert m. induction n as [|n IH]; intros m; cbn; [reflexivity|].
    rewrite IH. reflexivity. }
  rewrite Hl. lia.
Qed.

(** ** What one pass of the loop body does *)

Lemma print_trace_facts (n nf : Z) (log : Log Float) (model_name : string) :
  existsb is_metrics (print_trace L a n nf log) = true
  /\ existsb is_add_scalar (print_trace L a n nf log) = negb (no_tb a)
  /\ existsb is_vocab_save (print_trace L a n nf log) = false
  /\ existsb (is_save_model model_name) (print_trace L a n nf log) = false.
Proof.
  split; [reflexivity|]. split; [|split].
  - unfold print_trace. destruct (no_tb a); reflexivity.
  - apply (existsb_none _ is_print); [|apply print_trace_print].
    intros [] He; try discriminate; reflexivity.
  - apply (existsb_none _ is_print); [|apply print_trace_print].
    intros [] He; try discriminate; reflexivity.
Qed.

Lemma save_trace_facts (model_name : string) (d : Device) :
  existsb is_metrics (save_trace L model_name d) = false
  /\ existsb is_add_scalar (save_trace L model_name d) = false
  /\ existsb is_vocab_save (save_trace L model_name d) = true
  /\ existsb (is_save_model model_name) (save_trace L model_name d) = true.
Proof.
  unfold save_trace.
  destruct (cuda_is_available L); cbn; rewrite String.eqb_refl; auto.
Qed.

Lemma iteration_observed (model_name : string) (v : Vars) (w : World) :
  pass_stops L a (i v + 1) (S (updates w)) = false ->
  let evs := events (iteration L a model_name v w) in
  logs_metrics evs = log_due a (i v + 1)
  /\ writes_scalars evs = log_due a (i v + 1) && negb (no_tb a)
  /\ checkpointed model_name evs = save_test a (i v + 1)
  /\ touches_checkpoint evs = save_test a (i v + 1).
Proof.
  intros Hz evs. subst evs. rewrite (iteration_run _ _ _ Hz). cbn [events i num_frames].
  unfold logs_metrics, writes_scalars, checkpointed, touches_checkpoint.
  cbn [existsb is_metrics is_add_scalar is_vocab_save is_save_model orb].
  rewrite !existsb_app.
  set (log := update_parameters L (S (updates w))).
  destruct (print_trace_facts (i v + 1) (num_frames v + log_num_frames log) log
              model_name) as (P1 & P2 & P3 & P4).
  destruct (save_trace_facts model_name (device w)) as (S1 & S2 & S3 & S4).
  assert (P5 : existsb
                 (fun e : Event Float =>
                    match e with EvVocabSave | EvSaveModel _ _ => true | _ => false end)
                 (print_trace L a (i v + 1) (num_frames v + log_num_frames log) log)
               = false).
  { apply (existsb_none _ is_print); [|apply print_trace_print].
    intros [] He; try discriminate; reflexivity. }
  destruct (log_due a (i v + 1)), (save_test a (i v + 1));
    rewrite ?P1, ?P2, ?P3, ?P4, ?P5, ?S1, ?S2, ?S3, ?S4; cbn;
    rewrite ?orb_false_r, ?orb_true_r; auto.
Qed.

Lemma iteration_observed_raise (model_name : string) (v : Vars) (w : World) :
  pass_stops L a (i v + 1) (S (updates w)) = true ->
  let evs := events (iteration L a model_name v w) in
  logs_metrics evs = false /\ writes_scalars evs = false
  /\ checkpointed model_name evs = false /\ touches_checkpoint evs = false.
Proof.
  intros Hz evs. subst evs. rewrite (iteration_raises _ _ _ Hz). cbn. auto.
Qed.


Lemma setup_before_loop (w : World) :
  forallb is_before_loop (events (setup L a w)) = true.
Proof.
  destruct (Z_le_gt_dec (procs a) 0) as [Hp|Hp].
  - rewrite (setup_run_no_env _ Hp). reflexivity.
  - assert (Hp' : 1 <= procs a) by lia. rewrite (setup_run _ Hp').
    assert (Hpre : forallb is_before_loop (setup_prefix L a w) = true).
    { unfold setup_prefix. cbn [forallb]. rewrite !forallb_app.
      rewrite (forallb_weaken is_before_loop is_env)
        by (apply env_trace_all || (intros [] He; try discriminate; reflexivity)).
      destruct (cuda_is_available L); reflexivity. }
    destruct (make_algo_run (new_envs a (envs_made w) (py_range (procs a))) w)
      as [(al & -> & _)|(-> & _)]; cbn [out events]; [|exact Hpre].
    rewrite !forallb_app, Hpre.
    rewrite (forallb_weaken is_before_loop is_log_setup (setup_suffix L a))
      by (apply setup_suffix_log_setup
          || (intros [] He; try discriminate; try reflexivity;
              destruct m; try discriminate; reflexivity)).
    reflexivity.
Qed.

Lemma loop_never (p : Event Float -> bool) (model_name : string) :
  (forall v w, existsb p (events (iteration L a model_name v w)) = false) ->
  forall fuel v w,
    existsb p (events (train_loop L fuel a model_name v w)) = false.
Proof.
  intros Hp fuel v w.
  apply (existsb_none _ (fun e => negb (p e))).
  - intros e He. apply negb_true_iff in He. exact He.
  - apply train_loop_forall. intros v' w'. apply forallb_forall. intros e He.
    apply negb_true_iff. destruct (p e) eqn:E; [|reflexivity].
    rewrite <- (Hp v' w'). symmetry. apply existsb_exists. eauto.
Qed.

Lemma main_events (fuel : nat) (w : World) :
  events (main L fuel a w) =
    events (setup L a w)
    ++ match out (setup L a w) with
       | Ok model_name =>
           events (train_loop L fuel a model_name vars0 (final (setup L a w)))
       | _ => []
       end.
Proof. unfold main. rewrite bind_events. reflexivity. Qed.



(** C9: at every head of the training loop the model is on CUDA if CUDA is
    available and on the CPU otherwise; from any such state the save block
    saves the vocabulary, moves the model to the CPU when CUDA is available,
    saves it there, moves it back, and leaves it on the device it was on; so
    does the whole pass. *)
Theorem save_keeps_device (model_name : string) (k : nat) (w : World) (v : Vars) :
  at_head L a model_name k w v ->
  device w = (if cuda_is_available L then CUDA else CPU)
  /\ (forall w1,
        device w1 = device w ->
        out (save_block L model_name w1) = Ok tt
        /\ events (save_block L model_name w1) =
             (if cuda_is_available L
              then [EvVocabSave; EvModelCpu; EvSaveModel model_name CPU; EvModelCuda]
              else [EvVocabSave; EvSaveModel model_name CPU])
        /\ device (final (save_block L model_name w1)) = device w1)
  /\ device (final (iteration L a model_name v w)) = device w.
Proof.
  intros Hh. destruct (at_head_inv _ _ _ _ Hh) as (_ & _ & _ & Hd).
  split; [exact Hd|]. split.
  - intros w1 H1. rewrite Hd in H1. unfold save_block, save_model, acmodel_cpu,
      acmodel_cuda, when.
    destruct (cuda_is_available L); cbn; rewrite ?H1; auto.
  - destruct (pass_stops L a (i v + 1) (S (updates w))) eqn:Hz.
    + rewrite (iteration_raises _ _ _ Hz). reflexivity.
    + rewrite (iteration_run _ _ _ Hz). cbn [final device]. rewrite Hd.
      destruct (save_test a _), (cuda_is_available L); reflexivity.
Qed.


(** C7, amended: after the [k]-th pass of the loop body the update counter
    [i] equals [k], [update_parameters] has been called [k] times, and
    [num_frames] is the sum of the frame counts returned by those calls;
    both counters start at 0; [i] never goes down, and [num_frames] never
    goes down provided every update returns a frame count of at least 0. *)
Theorem counters_follow_updates (model_name : string) :
  counters_track L a model_name
  /\ (i vars0 = 0 /\ num_frames vars0 = 0)
  /\ (forall k w v v',
        at_head L a model_name k w v -> num_frames v < frames a ->
        out (iteration L a model_name v w) = Ok v' -> i v <= i v')
  /\ ((forall j, 0 <= log_num_frames (update_parameters L j)) ->
      counters_monotone L a model_name).
Proof.
  split; [|split; [split; reflexivity|split]].
  - intros k w v Hh. destruct (at_head_inv _ _ _ _ Hh) as (Hi & Hn & Hu & _).
    auto.
  - intros k w v v' _ _ Hit.
    destruct (iteration_ok_inv _ _ _ _ Hit) as (_ & ->). cbn. lia.
  - intros Hnn k w v v' _ _ Hit.
    destruct (iteration_ok_inv _ _ _ _ Hit) as (_ & ->). cbn.
    specialize (Hnn (S (updates w))). lia.
Qed.

Lemma iteration_one_update (model_name : string) (v : Vars) (w : World) :
  count_updates (events (iteration L a model_name v w)) = 1%nat.
Proof.
  destruct (pass_stops L a (i v + 1) (S (updates w))) eqn:Hz.
  - rewrite (iteration_raises _ _ _ Hz). reflexivity.
  - rewrite (iteration_run _ _ _ Hz). cbn [events].
    unfold count_updates. cbn [filter is_update]. rewrite filter_app.
    assert (Hp : forall n nf log, filter is_update (print_trace L a n nf log) = []).
    { intros. apply (filter_none _ is_print); [|apply print_trace_print].
      intros [] He; try discriminate; reflexivity. }
    assert (Hs : forall d, filter is_update (save_trace L model_name d) = []).
    { intros d. unfold save_trace. destruct (cuda_is_available L); reflexivity. }
    destruct (log_due a _), (save_test a _); rewrite ?Hp, ?Hs; reflexivity.
Qed.


(** Fuel only bounds the number of passes: a run that does not exhaust it is
    the same with more. *)
Lemma train_loop_fuel (model_name : string) (fuel more : nat) :
  forall v w,
    out (train_loop L fuel a model_name v w) <> OutOfFuel ->
    train_loop L (fuel + more) a model_name v w
    = train_loop L fuel a model_name v w.
Proof.
  induction fuel as [|fuel IH]; intros v w H.
  - destruct (Z_lt_ge_dec (num_frames v) (frames a)) as [Hlt|Hge].
    + apply Z.ltb_lt in Hlt. cbn in H. rewrite Hlt in H. contradiction H.
      reflexivity.
    + rewrite !train_loop_done by lia. reflexivity.
  - destruct (Z_lt_ge_dec (num_frames v) (frames a)) as [Hlt|Hge].
    + cbn [Nat.add]. rewrite !train_loop_step in * by exact Hlt.
      unfold bind in *.
      destruct (iteration L a model_name v w) as [[v1|e|] evs w1];
        try reflexivity.
      rewrite IH; [reflexivity|].
      destruct (train_loop L fuel a model_name v1 w1). exact H.
    + rewrite !train_loop_done by lia. reflexivity.
Qed.


End Properties.

(** ** The order of the steps *)

Section Order.

Context {Float : Type}.
Variable L : Libs Float.

Lemma in_stages_empty (stages : list (Event Float -> bool)) : in_stages stages [].
Proof.
  induction stages as [|p stages IH]; cbn; [reflexivity|].
  exists [], []. auto.
Qed.

Lemma in_stages_app (p : Event Float -> bool) (stages : list (Event Float -> bool))
  (g rest : list (Event Float)) :
  forallb p g = true -> in_stages stages rest -> in_stages (p :: stages) (g ++ rest).
Proof. intros Hg Hr. cbn. exists g, rest. auto. Qed.

Lemma staged_groups (g0 g1 g2 g3 g4 g5 g6 g7 g8 : list (Event Float)) :
  forallb is_parse g0 = true -> forallb is_seed g1 = true ->
  forallb is_env g2 = true -> forallb is_name g3 = true ->
  forallb is_preprocessor g4 = true -> forallb is_model g5 = true ->
  forallb is_algo g6 = true -> forallb is_log_setup g7 = true ->
  forallb is_loop g8 = true ->
  in_stages script_stages (g0 ++ g1 ++ g2 ++ g3 ++ g4 ++ g5 ++ g6 ++ g7 ++ g8).
Proof.
  intros. unfold script_stages.
  repeat (apply in_stages_app; [assumption|]).
  rewrite <- (app_nil_r g8). apply in_stages_app; [assumption|reflexivity].
Qed.

Lemma script_events (fuel : nat) (w : World) :
  events (script L fuel w) =
    EvParseArgs (sys_argv L)
      :: match parse_args L (sys_argv L) with
         | None => []
         | Some a => events (main L fuel a w)
         end.
Proof.
  unfold script. rewrite bind_events. cbn [emit events out final app].
  destruct (parse_args L (sys_argv L)); reflexivity.
Qed.

Lemma main_starts_with_seed (a : Args Float) (fuel : nat) (w : World) :
  exists rest, events (main L fuel a w) = EvSeed (seed a) :: rest.
Proof.
  rewrite main_events. destruct (Z_le_gt_dec (procs a) 0) as [Hp|Hp].
  - rewrite (setup_run_no_env _ _ _ Hp). cbn. eauto.
  - assert (Hp' : 1 <= procs a) by lia. rewrite (setup_run _ _ _ Hp').
    destruct (out (make_algo a _ w)); cbn [events out]; unfold setup_prefix;
      cbn [app]; eauto.
Qed.

(** The run of a script whose command line parses and that has an
    environment and a known algorithm. *)
Lemma script_run (a : Args Float) (fuel : nat) (w : World) :
  parse_args L (sys_argv L) = Some a ->
  1 <= procs a ->
  algo a = "a2c" \/ algo a = "ppo" ->
  let model_name := model_name_of a (strftime_now L) in
  exists al,
    events (script L fuel w) =
      [EvParseArgs (sys_argv L)] ++ [EvSeed (seed a)]
      ++ env_trace a (envs_made w) (py_range (procs a))
      ++ [EvStrftime]
      ++ [EvObssPreprocessor model_name (first_env a w)]
      ++ (EvLoadModel model_name (first_env a w)
            :: (if cuda_is_available L then [EvModelCuda] else []))
      ++ [EvAlgo al]
      ++ setup_suffix L a
      ++ events (train_loop L fuel a model_name vars0 (setup_world L a w)).
Proof.
  intros Hparse Hp Halgo model_name.
  rewrite script_events, Hparse.
  pose proof (main_run L a fuel w Hp) as Hm. cbv zeta in Hm.
  destruct (make_algo_run a (new_envs a (envs_made w) (py_range (procs a))) w)
    as [(al & E & _)|(_ & H1 & H2)].
  - rewrite E in Hm. cbn [out] in Hm. destruct Hm as [-> _]. exists al.
    unfold setup_prefix. fold model_name. cbn [app]. rewrite <- !app_assoc.
    reflexivity.
  - apply String.eqb_neq in H1, H2. tauto.
Qed.

Lemma main_staged (a : Args Float) (fuel : nat) (w : World) :
  in_stages script_stages (EvParseArgs (sys_argv L) :: events (main L fuel a w)).
Proof.
  destruct (Z_le_gt_dec (procs a) 0) as [Hp|Hp].
  - rewrite main_events, (setup_run_no_env _ _ _ Hp). cbn [events out app].
    apply (staged_groups [EvParseArgs (sys_argv L)] [EvSeed (seed a)] []
             [EvStrftime] [] [] [] [] []); reflexivity.
  - assert (Hp' : 1 <= procs a) by lia.
    pose proof (main_run L a fuel w Hp') as Hm. cbv zeta in Hm.
    set (model_name := model_name_of a (strftime_now L)) in *.
    destruct (make_algo_run a (new_envs a (envs_made w) (py_range (procs a))) w)
      as [(al & E & _)|(E & _)]; rewrite E in Hm; cbn [out] in Hm;
      destruct Hm as [-> _].
    + replace (EvParseArgs (sys_argv L)
                 :: setup_prefix L a w ++ [EvAlgo al] ++ setup_suffix L a
                    ++ events (train_loop L fuel a model_name vars0
                                 (setup_world L a w)))
        with ([EvParseArgs (sys_argv L)] ++ [EvSeed (seed a)]
              ++ env_trace a (envs_made w) (py_range (procs a))
              ++ [EvStrftime]
              ++ [EvObssPreprocessor model_name (first_env a w)]
              ++ (EvLoadModel model_name (first_env a w)
                    :: (if cuda_is_available L then [EvModelCuda] else []))
              ++ [EvAlgo al]
              ++ setup_suffix L a
              ++ events (train_loop L fuel a model_name vars0 (setup_world L a w)))
        by (unfold setup_prefix; fold model_name; cbn [app];
            rewrite <- !app_assoc; reflexivity).
      apply staged_groups; try reflexivity.
      * apply env_trace_all.
      * destruct (cuda_is_available L); reflexivity.
      * apply setup_suffix_log_setup.
      * apply train_loop_loop.
    + replace (EvParseArgs (sys_argv L) :: setup_prefix L a w)
        with ([EvParseArgs (sys_argv L)] ++ [EvSeed (seed a)]
              ++ env_trace a (envs_made w) (py_range (procs a))
              ++ [EvStrftime]
              ++ [EvObssPreprocessor model_name (first_env a w)]
              ++ (EvLoadModel model_name (first_env a w)
                    :: (if cuda_is_available L then [EvModelCuda] else []))
              ++ [] ++ [] ++ [])
        by (unfold setup_prefix; fold model_name; cbn [app];
            rewrite ?app_nil_r; reflexivity).
      apply staged_groups; try reflexivity.
      * apply env_trace_all.
      * destruct (cuda_is_available L); reflexivity.
Qed.

(** C6: the calls of every run fall into consecutive groups in the order of
    the steps: parsing, seeding the RNG, building the environments, naming
    the model, building the preprocessor, loading the model, building the
    algorithm object, setting up the loggers, the loop; [utils.seed(args.seed)]
    comes before every [gym.make]; and when the command line parses, there is
    at least one environment and the algorithm is known, every one of these
    steps is performed: the run is exactly these groups, the preprocessor and
    the model being built from the first environment. *)
Theorem script_order (fuel : nat) (w : World) :
  in_stages script_stages (events (script L fuel w))
  /\ (forall pre id name post,
        events (script L fuel w) = pre ++ EvGymMake id name :: post ->
        exists a, parse_args L (sys_argv L) = Some a /\ In (EvSeed (seed a)) pre)
  /\ (forall a,
        parse_args L (sys_argv L) = Some a ->
        1 <= procs a ->
        algo a = "a2c" \/ algo a = "ppo" ->
        exists al,
          events (script L fuel w) =
            [EvParseArgs (sys_argv L)] ++ [EvSeed (seed a)]
            ++ env_trace a (envs_made w) (py_range (procs a))
            ++ [EvStrftime]
            ++ [EvObssPreprocessor (model_name_of a (strftime_now L)) (first_env a w)]
            ++ (EvLoadModel (model_name_of a (strftime_now L)) (first_env a w)
                  :: (if cuda_is_available L then [EvModelCuda] else []))
            ++ [EvAlgo al]
            ++ setup_suffix L a
            ++ events (train_loop L fuel a (model_name_of a (strftime_now L))
                         vars0 (setup_world L a w))).
Proof.
  split; [|split].
  - rewrite script_events. destruct (parse_args L (sys_argv L)) as [a|].
    + apply main_staged.
    + apply (staged_groups [EvParseArgs (sys_argv L)] [] [] [] [] [] [] [] []);
        reflexivity.
  - intros pre id name post. rewrite script_events.
    destruct (parse_args L (sys_argv L)) as [a|].
    + destruct (main_starts_with_seed a fuel w) as [rest ->]. intros E.
      exists a. split; [reflexivity|].
      destruct pre as [|e1 [|e2 pre]]; cbn in E; try discriminate.
      injection E as _ <- _. right. left. reflexivity.
    + intros E. destruct pre as [|e1 [|e2 pre]]; discriminate.
  - intros a Hparse Hp Halgo. apply (script_run a fuel w Hparse Hp Halgo).
Qed.

End Order.

(** C8, a defect of the script: with [--model ""] the option is given but
    falsy, so line 78 falls back to the default name, which already ends in
    the timestamp, and line 106 appends the timestamp again: the log name is
    [E_a2c_T_T], not the model name followed by one timestamp. *)
Theorem log_name_empty_model :
  let a := ex_args "a2c" (Some "") 1 4 1 0 false in
  let L := ex_libs false 2 (Some a) in
  model a = Some ""
  /\ log_name_of a (strftime_now L) = "E_a2c_T_T"
  /\ log_name_of a (strftime_now L) <> "" +++ "_" +++ strftime_now L
  /\ In (EvLogger "E_a2c_T_T") (events (script L 5 world0)).
Proof.
  cbv zeta. split; [reflexivity|]. split; [reflexivity|]. split.
  - vm_compute. discriminate.
  - vm_compute. tauto.
Qed.

(** ** Sample runs of the claims *)

Lemma algo_follows_flag_witness :
  1 <= procs (ex_args "ppo" None 2 4 1 0 false)
  /\ algo_selected (ex_libs true 2 None) (ex_args "ppo" None 2 4 1 0 false) 5 world0.
Proof.
  split; [cbn; lia|].
  apply (algo_follows_flag (ex_libs true 2 None) (ex_args "ppo" None 2 4 1 0 false)).
  cbn; lia.
Defined.

(** C1 as stated fails without an environment: with [--procs 0] and
    [--algo a2c] the script stops at [envs[0]] with [IndexError] and
    constructs no algorithm object. *)
Lemma algo_selected_needs_env :
  out (main (ex_libs false 1 None) 5 (ex_args "a2c" None 0 10 1 0 false) world0)
    = Raise IndexError
  /\ ~ algo_selected (ex_libs false 1 None) (ex_args "a2c" None 0 10 1 0 false)
        5 world0.
Proof.
  split; [reflexivity|].
  intros [H _]. destruct (H eq_refl) as [envs E]. vm_compute in E. discriminate.
Qed.

Lemma envs_built_witness :
  1 <= procs (ex_args "ppo" None 2 4 1 0 false)
  /\ filter is_env
       (events (main (ex_libs true 2 None) 5 (ex_args "ppo" None 2 4 1 0 false) world0))
     = [EvGymMake 0 "E"; EvEnvSeed 0 1; EvGymMake 1 "E"; EvEnvSeed 1 2].
Proof.
  split; [cbn; lia|].
  apply (envs_built (ex_libs true 2 None) (ex_args "ppo" None 2 4 1 0 false) 5).
  cbn; lia.
Defined.

Lemma run_head :
  at_head run_libs run_args run_name 0 (final (setup run_libs run_args world0)) vars0.
Proof. apply head_first. reflexivity. Defined.









Lemma counters_follow_updates_witness :
  (forall j, 0 <= log_num_frames (update_parameters run_libs j))
  /\ counters_monotone run_libs run_args run_name
  /\ counters_track run_libs run_args run_name.
Proof.
  assert (Hnf : forall j, 0 <= log_num_frames (update_parameters run_libs j))
    by (intros j; cbn; lia).
  split; [exact Hnf|]. split.
  - exact (proj2 (proj2 (proj2 (counters_follow_updates run_libs run_args run_name)))
             Hnf).
  - exact (proj1 (counters_follow_updates run_libs run_args run_name)).
Defined.

(** C7 as stated fails for [num_frames] when an update reports a negative
    frame count: after the first pass the counter has gone from 0 to -1. *)
Lemma num_frames_can_go_down :
  out (iteration back_libs back_args "E_a2c_T" vars0
         (final (setup back_libs back_args world0)))
    = Ok {| num_frames := -1; i := 1 |}
  /\ ~ counters_monotone back_libs back_args "E_a2c_T".
Proof.
  split; [reflexivity|]. intros H.
  assert (Hh : at_head back_libs back_args "E_a2c_T" 0
                 (final (setup back_libs back_args world0)) vars0)
    by (apply head_first; reflexivity).
  specialize (H _ _ _ {| num_frames := -1; i := 1 |} Hh).
  cbn in H. destruct H as [_ H]; [lia|reflexivity|lia].
Qed.

Lemma save_keeps_device_witness :
  at_head run_libs run_args run_name 0 (final (setup run_libs run_args world0)) vars0
  /\ device (final (iteration run_libs run_args run_name vars0
                      (final (setup run_libs run_args world0))))
     = CUDA
  /\ checkpointed run_name
       (events (iteration run_libs run_args run_name vars0
                  (final (setup run_libs run_args world0)))) = true.
Proof.
  split; [exact run_head|]. split; [|reflexivity].
  exact (proj2 (proj2 (save_keeps_device run_libs run_args run_name 0 _ vars0
                         run_head))).
Defined.



Lemma script_order_witness :
  parse_args run_libs (sys_argv run_libs) = Some run_args
  /\ 1 <= procs run_args
  /\ (algo run_args = "a2c" \/ algo run_args = "ppo")
  /\ exists al,
       events (script run_libs 5 world0) =
         [EvParseArgs ["train.py"]; EvSeed 1;
          EvGymMake 0 "E"; EvEnvSeed 0 1; EvGymMake 1 "E"; EvEnvSeed 1 2;
          EvStrftime;
          EvObssPreprocessor "E_ppo_T" (first_env run_args world0);
          EvLoadModel "E_ppo_T" (first_env run_args world0);
          EvModelCuda;
          EvAlgo al;
          EvLogger "E_ppo_T"; EvSummaryWriter "E_ppo_T";
          EvLog (MsgCommand ["train.py"]) false; EvLog MsgModel true]
         ++ events (train_loop run_libs 5 run_args "E_ppo_T" vars0
                      (setup_world run_libs run_args world0)).
Proof.
  assert (Hp : 1 <= procs run_args) by (cbn; lia).
  assert (Ha : algo run_args = "a2c" \/ algo run_args = "ppo")
    by (right; reflexivity).
  split; [reflexivity|]. split; [exact Hp|]. split; [exact Ha|].
  exact (proj2 (proj2 (script_order run_libs 5 world0)) run_args eq_refl Hp Ha).
Defined.

(** ** Further properties of the script *)

Section Further.

Context {Float : Type}.
Variable L : Libs Float.
Variable a : Args Float.

(** *** Induction over the passes of the loop *)

Lemma train_loop_forall_inv (I : Vars -> World -> Prop) (Q : Event Float -> Prop)
  (model_name : string) :
  (forall v w,
     I v w -> num_frames v < frames a ->
     Forall Q (events (iteration L a model_name v w))
     /\ forall v1,
          out (iteration L a model_name v w) = Ok v1 ->
          I v1 (final (iteration L a model_name v w))) ->
  forall fuel v w,
    I v w -> Forall Q (events (train_loop L fuel a model_name v w)).
Proof.
  intros Hstep. induction fuel as [|fuel IH]; intros v w Hi; cbn [train_loop].
  - destruct (num_frames v <? frames a); constructor.
  - destruct (num_frames v <? frames a) eqn:Hlt; [|constructor].
    apply Z.ltb_lt in Hlt. destruct (Hstep v w Hi Hlt) as [Hq Hn].
    rewrite bind_events. apply Forall_app. split; [exact Hq|].
    destruct (out (iteration L a model_name v w)) as [v1| |]; try constructor.
    apply IH. apply Hn. reflexivity.
Qed.

Lemma train_loop_ok_ind (P : Vars -> World -> list (Event Float) -> Vars -> Prop)
  (model_name : string) :
  (forall v w, frames a <= num_frames v -> P v w [] v) ->
  (forall v w v1 evs v',
     num_frames v < frames a ->
     log_interval a <> 0 ->
     out (iteration L a model_name v w) = Ok v1 ->
     P v1 (final (iteration L a model_name v w)) evs v' ->
     P v w (events (iteration L a model_name v w) ++ evs) v') ->
  forall fuel v w v',
    out (train_loop L fuel a model_name v w) = Ok v' ->
    P v w (events (train_loop L fuel a model_name v w)) v'.
Proof.
  intros Hdone Hstep. induction fuel as [|fuel IH]; intros v w v' Ho.
  - destruct (Z_lt_ge_dec (num_frames v) (frames a)) as [Hlt|Hge].
    + apply Z.ltb_lt in Hlt. cbn in Ho. rewrite Hlt in Ho. discriminate.
    + rewrite train_loop_done in * by lia. cbn in *. injection Ho as <-.
      apply Hdone. lia.
  - destruct (Z_lt_ge_dec (num_frames v) (frames a)) as [Hlt|Hge].
    + rewrite (train_loop_step _ _ _ _ _ _ Hlt) in *.
      rewrite bind_out in Ho. rewrite bind_events.
      destruct (out (iteration L a model_name v w)) as [v1| |] eqn:Hit;
        try discriminate.
      destruct (iteration_ok_inv _ _ _ _ _ _ Hit) as [Hz _].
      apply (Hstep v w v1); auto.
    + rewrite train_loop_done in * by lia. cbn in *. injection Ho as <-.
      apply Hdone. lia.
Qed.

Lemma main_ok_inv (fuel : nat) (w : World) (v : Vars) :
  out (main L fuel a w) = Ok v ->
  1 <= procs a
  /\ out (train_loop L fuel a (model_name_of a (strftime_now L)) vars0
            (setup_world L a w)) = Ok v
  /\ events (main L fuel a w) =
       events (setup L a w)
       ++ events (train_loop L fuel a (model_name_of a (strftime_now L)) vars0
                    (setup_world L a w)).
Proof.
  intros Ho. unfold main in Ho. rewrite bind_out in Ho. rewrite main_events.
  destruct (out (setup L a w)) as [mn| |] eqn:Hs; try discriminate.
  destruct (setup_ok_inv _ _ _ _ Hs) as (Hp & -> & Hf). rewrite Hf in *. auto.
Qed.

Lemma bind_final {A B} (m : M Float A) (f : A -> M Float B) (w : World) :
  final (bind m f w) =
    match out (m w) with
    | Ok x => final (f x (final (m w)))
    | _ => final (m w)
    end.
Proof.
  unfold bind. destruct (m w) as [[x|e|] evs w1]; cbn; try reflexivity.
  destruct (f x w1); reflexivity.
Qed.

(** *** Before the loop *)

Lemma make_algo_known (envs : list EnvObj) (w : World) :
  algo a = "a2c" \/ algo a = "ppo" ->
  exists al,
    make_algo a envs w = {| out := Ok al; events := [EvAlgo al]; final := w |}
    /\ algo_envs al = envs.
Proof.
  unfold make_algo. intros [H|H]; rewrite H; cbn; eexists; split; reflexivity.
Qed.

Lemma setup_ok (w : World) :
  1 <= procs a ->
  algo a = "a2c" \/ algo a = "ppo" ->
  out (setup L a w) = Ok (model_name_of a (strftime_now L))
  /\ final (setup L a w) = setup_world L a w.
Proof.
  intros Hp Ha. rewrite (setup_run _ _ _ Hp).
  destruct (make_algo_known (new_envs a (envs_made w) (py_range (procs a))) w Ha)
    as (al & -> & _).
  cbn. auto.
Qed.

Lemma new_envs_range (m n : nat) :
  new_envs a m (map Z.of_nat (seq m n)) =
    map (fun j => {| env_id := j; env_name := env a;
                     env_seeded := Some (seed a + Z.of_nat j) |})
        (seq m n).
Proof.
  revert m. induction n as [|n IH]; intros m; cbn; [reflexivity|].
  rewrite IH. reflexivity.
Qed.

Lemma seeds_given_app (l1 l2 : list (Event Float)) :
  seeds_given (l1 ++ l2) = seeds_given l1 ++ seeds_given l2.
Proof.
  induction l1 as [|e l1 IH]; cbn; [reflexivity|].
  destruct e; cbn; rewrite IH; reflexivity.
Qed.

Lemma seeds_given_none (q : Event Float -> bool) (l : list (Event Float)) :
  (forall id s, q (EvEnvSeed id s) = false) ->
  forallb q l = true -> seeds_given l = [].
Proof.
  intros Hq. induction l as [|e l IH]; cbn; [reflexivity|].
  intros H. apply andb_prop in H. destruct H as [He Hl].
  destruct e; auto. rewrite Hq in He. discriminate.
Qed.

Lemma seeds_given_env_trace (m : nat) (ns : list Z) :
  seeds_given (env_trace a m ns) = map (fun n => seed a + n) ns.
Proof.
  revert m. induction ns as [|n ns IH]; intros m; cbn; [reflexivity|].
  rewrite IH. reflexivity.
Qed.

Lemma setup_prefix_seeds (w : World) :
  seeds_given (setup_prefix L a w) =
    map (fun j => seed a + Z.of_nat j) (seq 0 (Z.to_nat (procs a))).
Proof.
  unfold setup_prefix. cbn [seeds_given]. rewrite !seeds_given_app.
  rewrite seeds_given_env_trace. unfold py_range. rewrite map_map.
  destruct (cuda_is_available L); cbn; rewrite app_nil_r; reflexivity.
Qed.

(** X1: with at least one environment and a known algorithm, exactly one
    algorithm object is constructed and it is handed all the [procs]
    environments, in the order they were made, the [j]-th one made from
    [args.env] and seeded with [args.seed + j]. *)
Theorem algo_gets_all_envs (fuel : nat) :
  1 <= procs a ->
  algo a = "a2c" \/ algo a = "ppo" ->
  exists al,
    algos_built (events (main L fuel a world0)) = [al]
    /\ algo_envs al =
         map (fun j => {| env_id := j; env_name := env a;
                          env_seeded := Some (seed a + Z.of_nat j) |})
             (seq 0 (Z.to_nat (procs a))).
Proof.
  intros Hp Ha. pose proof (main_run L a fuel world0 Hp) as Hm. cbv zeta in Hm.
  destruct (make_algo_known (new_envs a (envs_made world0) (py_range (procs a)))
              world0 Ha) as (al & E & Hal).
  rewrite E in Hm. cbn [out] in Hm. destruct Hm as [-> _]. exists al. split.
  - rewrite !algos_built_app.
    rewrite (proj1 (setup_prefix_quiet L a world0)).
    rewrite (proj1 (setup_suffix_quiet L a)).
    rewrite (proj1 (loop_quiet L a _ _ _ _)). reflexivity.
  - rewrite Hal. unfold py_range. cbn [envs_made world0]. apply new_envs_range.
Qed.

(** X2: in every run the seeds given to the environments are
    [args.seed], [args.seed + 1], ... one per environment, so no two
    environments are given the same seed. *)
Theorem env_seeds_distinct (fuel : nat) (w : World) :
  seeds_given (events (main L fuel a w)) =
    map (fun j => seed a + Z.of_nat j) (seq 0 (Z.to_nat (procs a)))
  /\ NoDup (seeds_given (events (main L fuel a w))).
Proof.
  assert (He : seeds_given (events (main L fuel a w)) =
               map (fun j => seed a + Z.of_nat j) (seq 0 (Z.to_nat (procs a)))).
  { destruct (Z_le_gt_dec (procs a) 0) as [Hp|Hp].
    - rewrite main_events, (setup_run_no_env _ _ _ Hp). cbn.
      replace (Z.to_nat (procs a)) with O by lia. reflexivity.
    - assert (Hp' : 1 <= procs a) by lia.
      pose proof (main_run L a fuel w Hp') as Hm. cbv zeta in Hm.
      destruct (out (make_algo a _ w)); destruct Hm as [-> _];
        rewrite ?seeds_given_app, setup_prefix_seeds; try reflexivity.
      rewrite (seeds_given_none is_log_setup (setup_suffix L a))
        by (apply setup_suffix_log_setup || reflexivity).
      rewrite (seeds_given_none is_loop (events (train_loop _ _ _ _ _ _)))
        by (apply train_loop_loop || reflexivity).
      cbn. rewrite app_nil_r. reflexivity. }
  split; [exact He|]. rewrite He.
  apply NoDup_map_NoDup_ForallPairs; [|apply seq_NoDup].
  intros x y _ _ H. lia.
Qed.

(** X3: with [--procs] zero or negative no environment is made, and the
    script stops at [envs[0]] with [IndexError] having only seeded the RNG
    and read the clock: no model is loaded and no logger is created. *)
Theorem no_env_stops_early (fuel : nat) (w : World) :
  procs a <= 0 ->
  main L fuel a w =
    {| out := Raise IndexError;
       events := [EvSeed (seed a); EvStrftime];
       final := w |}.
Proof.
  intros Hp. unfold main, bind. rewrite (setup_run_no_env _ _ _ Hp). reflexivity.
Qed.

(** X4: with an unknown [--algo] (and at least one environment) the
    [ValueError] comes late: all environments have been made and seeded,
    the preprocessor built and the model loaded (and moved to CUDA when
    available); it comes before any logger or tensorboard writer is
    created. *)
Theorem unknown_algo_stops_late (fuel : nat) (w : World) :
  1 <= procs a ->
  algo a <> "a2c" -> algo a <> "ppo" ->
  let model_name := model_name_of a (strftime_now L) in
  out (main L fuel a w) = Raise ValueError
  /\ events (main L fuel a w) =
       EvSeed (seed a)
         :: env_trace a (envs_made w) (py_range (procs a))
         ++ [EvStrftime;
             EvObssPreprocessor model_name (first_env a w);
             EvLoadModel model_name (first_env a w)]
         ++ (if cuda_is_available L then [EvModelCuda] else [])
  /\ existsb is_log_setup (events (main L fuel a w)) = false.
Proof.
  intros Hp H1 H2 model_name.
  pose proof (main_run L a fuel w Hp) as Hm. cbv zeta in Hm.
  apply String.eqb_neq in H1, H2. unfold make_algo in Hm.
  rewrite H1, H2 in Hm. cbn [out raise] in Hm. destruct Hm as [He Ho].
  split; [exact Ho|]. rewrite He. split; [reflexivity|].
  unfold setup_prefix. cbn [existsb is_log_setup orb]. rewrite !existsb_app.
  rewrite (existsb_none _ is_env (env_trace a _ _))
    by (apply env_trace_all || (intros [] He'; try discriminate; reflexivity)).
  destruct (cuda_is_available L); reflexivity.
Qed.

(** X5: asked for no frames ([--frames] zero or negative), a script whose
    setup succeeds ends normally without a single update, whatever the two
    intervals are (a log interval of 0 included). *)
Theorem no_frames_no_update (fuel : nat) (w : World) :
  frames a <= 0 ->
  1 <= procs a ->
  algo a = "a2c" \/ algo a = "ppo" ->
  out (main L fuel a w) = Ok vars0
  /\ count_updates (events (main L fuel a w)) = O
  /\ updates (final (main L fuel a w)) = updates w.
Proof.
  intros Hf Hp Ha. destruct (setup_ok w Hp Ha) as [Hs Hw].
  unfold main. rewrite bind_out, bind_events, bind_final, Hs, Hw.
  rewrite train_loop_done by (cbn; lia). cbn [ret out events final].
  split; [reflexivity|]. split; [|reflexivity].
  rewrite app_nil_r. unfold count_updates.
  apply length_zero_iff_nil.
  apply (filter_none _ is_before_loop); [|apply setup_before_loop].
  intros [] He; try discriminate; reflexivity.
Qed.

(** X6: with [--log-interval 0] a script whose setup succeeds and that is
    asked for at least one frame makes exactly one update and stops in
    [ZeroDivisionError]: no metrics line is printed and no part of a
    checkpoint is written, whatever the save interval is. *)
Theorem zero_log_interval_raises (fuel : nat) (w : World) :
  log_interval a = 0 ->
  0 < frames a ->
  1 <= procs a ->
  algo a = "a2c" \/ algo a = "ppo" ->
  out (main L (S fuel) a w) = Raise ZeroDivisionError
  /\ count_updates (events (main L (S fuel) a w)) = 1%nat
  /\ logs_metrics (events (main L (S fuel) a w)) = false
  /\ touches_checkpoint (events (main L (S fuel) a w)) = false.
Proof.
  intros Hz Hf Hp Ha. destruct (setup_ok w Hp Ha) as [Hs Hw].
  unfold main. rewrite bind_out, bind_events, Hs, Hw.
  rewrite train_loop_step by (cbn; lia).
  rewrite bind_out, bind_events,
    (iteration_raises _ _ _ _ _ (pass_stops_zero L a _ _ Hz)).
  cbn [out events app].
  assert (Hb := setup_before_loop L a w).
  split; [reflexivity|]. split; [|split].
  - rewrite count_updates_app. unfold count_updates at 1.
    rewrite (filter_none _ is_before_loop _) by
      (exact Hb || (intros [] He; try discriminate; reflexivity)).
    reflexivity.
  - unfold logs_metrics. rewrite existsb_app.
    rewrite (existsb_none _ is_before_loop _) by
      (exact Hb
       || (intros [] He; try discriminate; try reflexivity;
           destruct m; try discriminate; reflexivity)).
    reflexivity.
  - unfold touches_checkpoint. rewrite existsb_app.
    rewrite (existsb_none _ is_before_loop _) by
      (exact Hb || (intros [] He; try discriminate; reflexivity)).
    reflexivity.
Qed.

(** X7: unless [--model] is given as the empty string, the log name is the
    name before the timestamp (the given model name, or [ENV_ALGO]),
    an underscore and the timestamp; the model name is that log name by
    default and the given name otherwise. *)
Theorem log_name_one_suffix (suffix : string) :
  model a <> Some "" ->
  log_name_of a suffix = base_name a +++ "_" +++ suffix
  /\ model_name_of a suffix =
       match model a with
       | Some m => m
       | None => log_name_of a suffix
       end.
Proof.
  intros Hm. unfold base_name. destruct (model a) as [m|] eqn:E.
  - assert (Hne : m <> "") by (intros ->; apply Hm; reflexivity).
    destruct (log_name_model_given a m suffix E Hne) as [H1 H2]. auto.
  - destruct (log_name_default a suffix E) as [H1 H2].
    rewrite H2, H1. auto.
Qed.

(** *** The calls of one pass *)

Lemma tb_scalars_cases (n nf : Z) (log : Log Float) (r rr nfe : list (string * Float))
  (e : Event Float) :
  In e (tb_scalars n nf log r rr nfe) -> exists tag val, e = EvAddScalar tag val n.
Proof.
  unfold tb_scalars. rewrite !in_app_iff, !in_map_iff. cbn [In].
  intros H.
  repeat match goal with
         | H : _ \/ _ |- _ => destruct H as [H|H]
         | H : exists _, _ /\ _ |- _ => destruct H as [? [H _]]
         | H : False |- _ => destruct H
         end; subst e; eauto.
Qed.

Lemma print_trace_cases (n nf : Z) (log : Log Float) (e : Event Float) :
  In e (print_trace L a n nf log) ->
  e = EvLog (MsgMetrics n nf
               (map snd (synthesize L (log_reshaped_return_per_episode log)))
               (map snd (synthesize L (log_num_frames_per_episode log)))
               (log_entropy log) (log_value log)
               (log_policy_loss log) (log_value_loss log)) true
  \/ (no_tb a = false /\ exists tag val, e = EvAddScalar tag val n).
Proof.
  unfold print_trace. intros [H|H]; [left; auto|]. right.
  destruct (no_tb a); [destruct H|]. split; [reflexivity|].
  eapply tb_scalars_cases. exact H.
Qed.

Lemma save_trace_cases (model_name : string) (d : Device) (e : Event Float) :
  In e (save_trace L model_name d) ->
  e = EvVocabSave \/ e = EvModelCpu \/ e = EvModelCuda
  \/ e = EvSaveModel model_name (if cuda_is_available L then CPU else d).
Proof.
  unfold save_trace. destruct (cuda_is_available L); cbn; intuition auto.
Qed.

Lemma iteration_cases (model_name : string) (v : Vars) (w : World) (e : Event Float) :
  In e (events (iteration L a model_name v w)) ->
  e = EvUpdateParameters (S (updates w))
  \/ (log_test_holds a (i v + 1)
      /\ In e (print_trace L a (i v + 1)
                 (num_frames v + log_num_frames (update_parameters L (S (updates w))))
                 (update_parameters L (S (updates w)))))
  \/ (log_interval a <> 0 /\ save_test a (i v + 1) = true
      /\ In e (save_trace L model_name (device w))).
Proof.
  destruct (pass_stops L a (i v + 1) (S (updates w))) eqn:Hs.
  - rewrite (iteration_raises _ _ _ _ _ Hs). cbn. intuition auto.
  - pose proof (pass_runs_nonzero _ _ _ _ Hs) as Hz.
    rewrite (iteration_run _ _ _ _ _ Hs). cbn [events i num_frames].
    intros [H|H]; [left; auto|]. apply in_app_or in H. destruct H as [H|H].
    + right. left. unfold log_test_holds.
      destruct (log_due a (i v + 1)) eqn:E; [|destruct H].
      apply Z.eqb_eq in E. auto.
    + right. right. destruct (save_test a (i v + 1)); [auto|destruct H].
Qed.

Lemma iteration_world (model_name : string) (v : Vars) (w : World) :
  updates (final (iteration L a model_name v w)) = S (updates w)
  /\ (device w = (if cuda_is_available L then CUDA else CPU) ->
      device (final (iteration L a model_name v w)) = device w).
Proof.
  destruct (pass_stops L a (i v + 1) (S (updates w))) eqn:Hz.
  - rewrite (iteration_raises _ _ _ _ _ Hz). cbn. auto.
  - rewrite (iteration_run _ _ _ _ _ Hz). cbn [final updates device].
    split; [reflexivity|]. intros ->.
    destruct (save_test a _), (cuda_is_available L); reflexivity.
Qed.

Lemma iteration_counts (model_name : string) (v : Vars) (w : World) :
  pass_stops L a (i v + 1) (S (updates w)) = false ->
  count_metrics (events (iteration L a model_name v w))
    = (if log_due a (i v + 1) then 1 else 0)%nat
  /\ count_saves (events (iteration L a model_name v w))
    = (if save_test a (i v + 1) then 1 else 0)%nat.
Proof.
  intros Hz. rewrite (iteration_run _ _ _ _ _ Hz). cbn [events i num_frames].
  unfold count_metrics, count_saves.
  cbn [filter is_metrics is_model_saved]. rewrite !filter_app, !length_app.
  assert (Hp : forall n nf log,
             List.length (filter is_metrics (print_trace L a n nf log)) = 1%nat
             /\ filter is_model_saved (print_trace L a n nf log) = []).
  { intros. unfold print_trace. cbn [filter is_metrics is_model_saved].
    destruct (no_tb a); [auto|].
    rewrite (filter_none is_metrics is_add_scalar)
      by (apply tb_scalars_all || (intros [] He; try discriminate; reflexivity)).
    rewrite (filter_none is_model_saved is_add_scalar)
      by (apply tb_scalars_all || (intros [] He; try discriminate; reflexivity)).
    auto. }
  assert (Hs : forall d,
             filter is_metrics (save_trace L model_name d) = []
             /\ List.length (filter is_model_saved (save_trace L model_name d))
                = 1%nat).
  { intros d. unfold save_trace. destruct (cuda_is_available L); auto. }
  destruct (log_due a (i v + 1)), (save_test a (i v + 1));
    rewrite ?(proj1 (Hp _ _ _)), ?(proj2 (Hp _ _ _)),
      ?(proj1 (Hs _)), ?(proj2 (Hs _)); auto.
Qed.

Lemma div_step (d n : Z) :
  0 < d -> 0 <= n ->
  (n + 1) / d - n / d = if (n + 1) mod d =? 0 then 1 else 0.
Proof.
  intros Hd Hn.
  pose proof (Z.div_mod (n + 1) d ltac:(lia)) as E.
  pose proof (Z.mod_pos_bound (n + 1) d Hd) as B.
  destruct ((n + 1) mod d =? 0) eqn:Hm.
  - apply Z.eqb_eq in Hm.
    assert (Hq : n / d = (n + 1) / d - 1); [|lia].
    symmetry. apply (Z.div_unique n d _ (d - 1)); [lia|]. nia.
  - apply Z.eqb_neq in Hm.
    assert (Hq : n / d = (n + 1) / d); [|lia].
    symmetry. apply (Z.div_unique n d _ ((n + 1) mod d - 1)); [lia|]. nia.
Qed.

Lemma frames_after_lower (k : nat) :
  (forall j, 1 <= log_num_frames (update_parameters L j)) ->
  Z.of_nat k <= frames_after L k.
Proof.
  intros H. induction k as [|k IH]; cbn [frames_after]; [lia|].
  specialize (H (S k)). lia.
Qed.

(** *** Runs that end normally *)

Lemma loop_ok_facts (model_name : string) (fuel : nat) (v : Vars) (w : World)
  (v' : Vars) :
  out (train_loop L fuel a model_name v w) = Ok v' ->
  0 <= i v ->
  num_frames v = frames_after L (Z.to_nat (i v)) ->
  updates w = Z.to_nat (i v) ->
  i v <= i v'
  /\ num_frames v' = frames_after L (Z.to_nat (i v'))
  /\ frames a <= num_frames v'
  /\ (forall k, (Z.to_nat (i v) <= k < Z.to_nat (i v'))%nat ->
             frames_after L k < frames a)
  /\ count_updates (events (train_loop L fuel a model_name v w))
     = Z.to_nat (i v' - i v).
Proof.
  intros Ho. revert fuel v w v' Ho.
  apply (train_loop_ok_ind
           (fun v w evs v' =>
              0 <= i v ->
              num_frames v = frames_after L (Z.to_nat (i v)) ->
              updates w = Z.to_nat (i v) ->
              i v <= i v'
              /\ num_frames v' = frames_after L (Z.to_nat (i v'))
              /\ frames a <= num_frames v'
              /\ (forall k, (Z.to_nat (i v) <= k < Z.to_nat (i v'))%nat ->
                         frames_after L k < frames a)
              /\ count_updates evs = Z.to_nat (i v' - i v))).
  - intros v w Hge Hi Hn Hu. rewrite Z.sub_diag.
    split; [lia|]. split; [exact Hn|]. split; [exact Hge|].
    split; [intros k Hk; lia|reflexivity].
  - intros v w v1 evs v' Hlt Hz Hit IH Hi Hn Hu.
    destruct (iteration_ok_inv _ _ _ _ _ _ Hit) as [_ Hv1].
    destruct (iteration_world model_name v w) as [Hu1 _].
    assert (Hs : Z.to_nat (i v1) = S (Z.to_nat (i v)))
      by (rewrite Hv1; cbn [i]; lia).
    destruct IH as (Hle & Hn' & Hf & Hk & Hc).
    + rewrite Hv1. cbn [i]. lia.
    + rewrite Hs. cbn [frames_after]. rewrite Hv1. cbn [num_frames].
      rewrite Hn, Hu. reflexivity.
    + rewrite Hs, Hu1, Hu. reflexivity.
    + rewrite Hv1 in Hle, Hc. cbn [i] in Hle, Hc.
      split; [lia|]. split; [exact Hn'|]. split; [exact Hf|]. split.
      * intros k Hr.
        destruct (Nat.eq_dec k (Z.to_nat (i v))) as [->|Hne].
        -- rewrite <- Hn. exact Hlt.
        -- apply Hk. lia.
      * rewrite count_updates_app, iteration_one_update, Hc. lia.
Qed.

Lemma loop_ok_counts (model_name : string) (fuel : nat) (v : Vars) (w : World)
  (v' : Vars) :
  out (train_loop L fuel a model_name v w) = Ok v' ->
  0 <= i v ->
  i v <= i v'
  /\ (0 < log_interval a ->
      Z.of_nat (count_metrics (events (train_loop L fuel a model_name v w)))
      = i v' / log_interval a - i v / log_interval a)
  /\ (0 < save_interval a ->
      Z.of_nat (count_saves (events (train_loop L fuel a model_name v w)))
      = i v' / save_interval a - i v / save_interval a).
Proof.
  intros Ho. revert fuel v w v' Ho.
  apply (train_loop_ok_ind
           (fun v w evs v' =>
              0 <= i v ->
              i v <= i v'
              /\ (0 < log_interval a ->
                  Z.of_nat (count_metrics evs)
                  = i v' / log_interval a - i v / log_interval a)
              /\ (0 < save_interval a ->
                  Z.of_nat (count_saves evs)
                  = i v' / save_interval a - i v / save_interval a))).
  - intros v w _ Hi. split; [lia|]. split; intros _; cbn; lia.
  - intros v w v1 evs v' Hlt Hz Hit IH Hi.
    destruct (iteration_ok_inv _ _ _ _ _ _ Hit) as [_ Hv1].
    destruct (iteration_counts model_name v w (iteration_ok_runs _ _ _ _ _ _ Hit))
      as [Hm Hs].
    rewrite Hv1 in IH. cbn [i] in IH.
    destruct IH as (Hle & Hl & Hsv); [lia|].
    split; [lia|]. split.
    + intros Hpos. specialize (Hl Hpos).
      unfold count_metrics in *. rewrite filter_app, length_app, Hm.
      pose proof (div_step (log_interval a) (i v) Hpos Hi) as D.
      unfold log_due. destruct ((i v + 1) mod log_interval a =? 0); lia.
    + intros Hpos. specialize (Hsv Hpos).
      unfold count_saves in *. rewrite filter_app, length_app, Hs.
      pose proof (div_step (save_interval a) (i v) Hpos Hi) as D.
      unfold save_test. replace (save_interval a >? 0) with true
        by (symmetry; apply Z.gtb_lt; lia).
      cbn [andb]. destruct ((i v + 1) mod save_interval a =? 0); lia.
Qed.

Lemma setup_counts (w : World) :
  count_updates (events (setup L a w)) = O
  /\ count_metrics (events (setup L a w)) = O
  /\ count_saves (events (setup L a w)) = O.
Proof.
  assert (Hb := setup_before_loop L a w).
  unfold count_updates, count_metrics, count_saves.
  rewrite (filter_none is_update is_before_loop _)
    by (exact Hb || (intros [] He; try discriminate; reflexivity)).
  rewrite (filter_none is_metrics is_before_loop _)
    by (exact Hb
        || (intros [] He; try discriminate; try reflexivity;
            destruct m; try discriminate; reflexivity)).
  rewrite (filter_none is_model_saved is_before_loop _)
    by (exact Hb || (intros [] He; try discriminate; reflexivity)).
  auto.
Qed.

(** X8: a run that ends normally has made exactly as many updates as it
    takes for the reported frames to add up to [args.frames]: with [n] the
    final value of [i], the script made [n] updates, the frames of the first
    [n] updates reach [args.frames], and the frames of any fewer do not. *)
Theorem stops_at_first_enough (fuel : nat) (v : Vars) :
  out (main L fuel a world0) = Ok v ->
  0 <= i v
  /\ count_updates (events (main L fuel a world0)) = Z.to_nat (i v)
  /\ num_frames v = frames_after L (Z.to_nat (i v))
  /\ frames a <= frames_after L (Z.to_nat (i v))
  /\ forall k, (k < Z.to_nat (i v))%nat -> frames_after L k < frames a.
Proof.
  intros Ho. destruct (main_ok_inv fuel world0 v Ho) as (_ & Hl & ->).
  destruct (loop_ok_facts _ _ _ _ _ Hl) as (Hi & Hn & Hf & Hk & Hc);
    try reflexivity; try (cbn; lia).
  cbn [i vars0] in *. rewrite Z.sub_0_r in Hc.
  split; [exact Hi|]. split; [|split; [exact Hn|split]].
  - rewrite count_updates_app, (proj1 (setup_counts world0)), Hc. reflexivity.
  - rewrite <- Hn. exact Hf.
  - intros k Hlt. apply Hk. cbn. lia.
Qed.

(** X9: when every update reports at least one frame, a run that ends
    normally has made at most [args.frames] updates (none when
    [args.frames] is not positive). *)
Theorem updates_bounded_by_frames (fuel : nat) (v : Vars) :
  (forall j, 1 <= log_num_frames (update_parameters L j)) ->
  out (main L fuel a world0) = Ok v ->
  0 <= i v <= Z.max 0 (frames a).
Proof.
  intros Hnf Ho. destruct (main_ok_inv fuel world0 v Ho) as (_ & Hl & _).
  destruct (loop_ok_facts _ _ _ _ _ Hl) as (Hi & _ & _ & Hk & _);
    try reflexivity; try (cbn; lia).
  cbn [i vars0] in *. split; [exact Hi|].
  destruct (Z.eq_dec (i v) 0) as [E|E]; [lia|].
  assert (Hlt : frames_after L (Z.to_nat (i v) - 1) < frames a)
    by (apply Hk; cbn; lia).
  pose proof (frames_after_lower (Z.to_nat (i v) - 1) Hnf). lia.
Qed.

(** X10: with a positive [--log-interval], a run that ends normally after
    [n] updates has printed exactly [n div log_interval] metrics lines. *)
Theorem log_lines_counted (fuel : nat) (w : World) (v : Vars) :
  0 < log_interval a ->
  out (main L fuel a w) = Ok v ->
  Z.of_nat (count_metrics (events (main L fuel a w))) = i v / log_interval a.
Proof.
  intros Hpos Ho. destruct (main_ok_inv fuel w v Ho) as (_ & Hl & ->).
  destruct (loop_ok_counts _ _ _ _ _ Hl) as (_ & Hm & _); [cbn; lia|].
  specialize (Hm Hpos). cbn [i vars0] in Hm.
  unfold count_metrics in *. rewrite filter_app, length_app.
  pose proof (proj1 (proj2 (setup_counts w))) as Hs. unfold count_metrics in Hs.
  rewrite Hs. cbn [Nat.add]. rewrite Hm, Z.div_0_l by lia. lia.
Qed.

(** X11: with a positive [--save-interval], a run that ends normally after
    [n] updates has saved the model exactly [n div save_interval] times. *)
Theorem checkpoints_counted (fuel : nat) (w : World) (v : Vars) :
  0 < save_interval a ->
  out (main L fuel a w) = Ok v ->
  Z.of_nat (count_saves (events (main L fuel a w))) = i v / save_interval a.
Proof.
  intros Hpos Ho. destruct (main_ok_inv fuel w v Ho) as (_ & Hl & ->).
  destruct (loop_ok_counts _ _ _ _ _ Hl) as (_ & _ & Hm); [cbn; lia|].
  specialize (Hm Hpos). cbn [i vars0] in Hm.
  unfold count_saves in *. rewrite filter_app, length_app.
  pose proof (proj2 (proj2 (setup_counts w))) as Hs. unfold count_saves in Hs.
  rewrite Hs. cbn [Nat.add]. rewrite Hm, Z.div_0_l by lia. lia.
Qed.

(** *** What is written, and when *)

Lemma setup_ok_loads (model_name : string) (w : World) :
  out (setup L a w) = Ok model_name ->
  In (EvLoadModel (model_name_of a (strftime_now L)) (first_env a w))
     (events (setup L a w)).
Proof.
  intros Hs. destruct (setup_ok_inv _ _ _ _ Hs) as (Hp & _ & _).
  rewrite (setup_run _ _ _ Hp) in *.
  assert (Hpre : In (EvLoadModel (model_name_of a (strftime_now L)) (first_env a w))
                    (setup_prefix L a w)).
  { unfold setup_prefix. right. apply in_or_app. right. cbn. auto. }
  destruct (out (make_algo a _ w)); cbn [events out] in *; try discriminate.
  apply in_or_app. left. exact Hpre.
Qed.

Lemma not_before_loop (e : Event Float) (w : World) :
  In e (events (setup L a w)) -> is_before_loop e = true.
Proof.
  intros H. pose proof (setup_before_loop L a w) as Hb.
  rewrite forallb_forall in Hb. apply Hb. exact H.
Qed.

Lemma main_event_cases (fuel : nat) (w : World) (e : Event Float) :
  In e (events (main L fuel a w)) ->
  In e (events (setup L a w))
  \/ (out (setup L a w) = Ok (model_name_of a (strftime_now L))
      /\ In e (events (train_loop L fuel a (model_name_of a (strftime_now L))
                         vars0 (setup_world L a w)))).
Proof.
  rewrite main_events. intros H. apply in_app_or in H.
  destruct H as [H|H]; [left; exact H|]. right.
  destruct (out (setup L a w)) as [mn| |] eqn:Hs; try destruct H.
  destruct (setup_ok_inv _ _ _ _ Hs) as (_ & -> & Hf). rewrite Hf in H. auto.
Qed.

(** X12: every [utils.save_model] call of every run is made while the model
    is on the CPU, and under the very name the model was loaded under. *)
Theorem saves_from_cpu (fuel : nat) (w : World) (name : string) (d : Device) :
  In (EvSaveModel name d) (events (main L fuel a w)) ->
  d = CPU
  /\ name = model_name_of a (strftime_now L)
  /\ In (EvLoadModel name (first_env a w)) (events (main L fuel a w)).
Proof.
  intros H. destruct (main_event_cases fuel w _ H) as [Hs|[Hs Hl]].
  - apply not_before_loop in Hs. discriminate.
  - assert (Hq : Forall
                   (fun e => forall name d,
                        e = EvSaveModel name d ->
                        d = CPU /\ name = model_name_of a (strftime_now L))
                   (events (train_loop L fuel a (model_name_of a (strftime_now L))
                              vars0 (setup_world L a w)))).
    { apply (train_loop_forall_inv
               (fun _ w => device w = (if cuda_is_available L then CUDA else CPU)));
        [|reflexivity].
      intros v1 w1 Hd _. split.
      - apply Forall_forall. intros e He name' d' ->.
        destruct (iteration_cases _ _ _ _ He) as [E|[[_ Hp]|(_ & _ & Hsv)]].
        + discriminate.
        + destruct (print_trace_cases _ _ _ _ Hp) as [E|[_ (t & x & E)]];
            discriminate.
        + destruct (save_trace_cases _ _ _ Hsv) as [E|[E|[E|E]]];
            try discriminate.
          injection E as -> ->. rewrite Hd.
          destruct (cuda_is_available L); auto.
      - intros v2 _. rewrite (proj2 (iteration_world _ v1 w1) Hd). exact Hd. }
    rewrite Forall_forall in Hq. destruct (Hq _ Hl name d eq_refl) as [-> ->].
    split; [reflexivity|]. split; [reflexivity|].
    rewrite main_events. apply in_or_app. left.
    apply (setup_ok_loads _ _ Hs).
Qed.

(** X13: every [writer.add_scalar] call of every run is made without
    [--no-tb], and its step is an update number, at least 1, that is a
    multiple of [args.log_interval]. *)
Theorem scalars_on_log_steps (fuel : nat) (w : World) (tag : string)
  (val : Scalar Float) (step : Z) :
  In (EvAddScalar tag val step) (events (main L fuel a w)) ->
  no_tb a = false /\ 1 <= step /\ (log_interval a | step).
Proof.
  intros H. destruct (main_event_cases fuel w _ H) as [Hs|[Hs Hl]].
  - apply not_before_loop in Hs. discriminate.
  - assert (Hq : Forall
                   (fun e => forall tag val step,
                        e = EvAddScalar tag val step ->
                        no_tb a = false /\ 1 <= step /\ (log_interval a | step))
                   (events (train_loop L fuel a (model_name_of a (strftime_now L))
                              vars0 (setup_world L a w)))).
    { apply (train_loop_forall_inv (fun v _ => 0 <= i v)); [|cbn; lia].
      intros v1 w1 Hi _. split.
      - apply Forall_forall. intros e He tag' val' step' ->.
        destruct (iteration_cases _ _ _ _ He) as [E|[[[Hz Hm] Hp]|(_ & _ & Hsv)]].
        + discriminate.
        + destruct (print_trace_cases _ _ _ _ Hp) as [E|[Htb (t & x & E)]];
            [discriminate|].
          injection E as _ _ ->. split; [exact Htb|]. split; [lia|].
          apply Z.mod_divide; assumption.
        + destruct (save_trace_cases _ _ _ Hsv) as [E|[E|[E|E]]]; discriminate.
      - intros v2 Hit. destruct (iteration_ok_inv _ _ _ _ _ _ Hit) as [_ ->].
        cbn. lia. }
    rewrite Forall_forall in Hq. apply (Hq _ Hl tag val step eq_refl).
Qed.

(** X14: every metrics line of a run started afresh is printed for an
    update number [n >= 1] that is a multiple of [args.log_interval]; it
    reports the frames added up over the first [n] updates, and the
    statistics, entropy, value and losses returned by the [n]-th update. *)
Theorem metrics_line_reports (fuel : nat) (n nf : Z) (rr nfe : list Float)
  (e1 e2 e3 e4 : Float) (tp : bool) :
  In (EvLog (MsgMetrics n nf rr nfe e1 e2 e3 e4) tp) (events (main L fuel a world0)) ->
  let log := update_parameters L (Z.to_nat n) in
  1 <= n /\ (log_interval a | n)
  /\ nf = frames_after L (Z.to_nat n)
  /\ rr = map snd (synthesize L (log_reshaped_return_per_episode log))
  /\ nfe = map snd (synthesize L (log_num_frames_per_episode log))
  /\ e1 = log_entropy log /\ e2 = log_value log
  /\ e3 = log_policy_loss log /\ e4 = log_value_loss log
  /\ tp = true.
Proof.
  intros H. destruct (main_event_cases fuel world0 _ H) as [Hs|[Hs Hl]].
  - apply not_before_loop in Hs. discriminate.
  - assert (Hq : Forall
                   (fun e => forall n nf rr nfe e1 e2 e3 e4 tp,
                        e = EvLog (MsgMetrics n nf rr nfe e1 e2 e3 e4) tp ->
                        let log := update_parameters L (Z.to_nat n) in
                        1 <= n /\ (log_interval a | n)
                        /\ nf = frames_after L (Z.to_nat n)
                        /\ rr = map snd (synthesize L
                                           (log_reshaped_return_per_episode log))
                        /\ nfe = map snd (synthesize L
                                            (log_num_frames_per_episode log))
                        /\ e1 = log_entropy log /\ e2 = log_value log
                        /\ e3 = log_policy_loss log /\ e4 = log_value_loss log
                        /\ tp = true)
                   (events (train_loop L fuel a (model_name_of a (strftime_now L))
                              vars0 (setup_world L a world0)))).
    { apply (train_loop_forall_inv
               (fun v w => 0 <= i v
                           /\ num_frames v = frames_after L (Z.to_nat (i v))
                           /\ updates w = Z.to_nat (i v)));
        [|cbn; auto with zarith].
      intros v1 w1 (Hi & Hn & Hu) _.
      assert (Hsucc : Z.to_nat (i v1 + 1) = S (updates w1)) by lia.
      split.
      - apply Forall_forall. intros e He n' nf' rr' nfe' x1 x2 x3 x4 tp' ->.
        destruct (iteration_cases _ _ _ _ He) as [E|[[[Hz Hm] Hp]|(_ & _ & Hsv)]].
        + discriminate.
        + destruct (print_trace_cases _ _ _ _ Hp) as [E|[_ (t & x & E)]];
            [|discriminate].
          injection E as -> -> -> -> -> -> -> -> ->. cbv zeta.
          rewrite Hsucc. cbn [frames_after]. rewrite Hn, Hu.
          repeat split; try reflexivity; try lia.
          apply Z.mod_divide; assumption.
        + destruct (save_trace_cases _ _ _ Hsv) as [E|[E|[E|E]]]; discriminate.
      - intros v2 Hit. destruct (iteration_ok_inv _ _ _ _ _ _ Hit) as [_ ->].
        cbn [i num_frames]. rewrite (proj1 (iteration_world _ v1 w1)), Hsucc.
        cbn [frames_after]. rewrite Hn, Hu. repeat split; lia. }
    rewrite Forall_forall in Hq.
    apply (Hq _ Hl n nf rr nfe e1 e2 e3 e4 tp eq_refl).
Qed.

(** X15: in a run whose setup succeeds the logging calls made before
    the loop are, in this order: the logger is created under the log name,
    the tensorboard writer (unless [--no-tb]) under the same log name, the
    command line is logged without being printed, and the model is logged
    and printed. *)
Theorem loggers_share_name (fuel : nat) (w : World) :
  1 <= procs a ->
  algo a = "a2c" \/ algo a = "ppo" ->
  let log_name := log_name_of a (strftime_now L) in
  filter is_log_setup (events (main L fuel a w)) =
    EvLogger log_name
      :: (if no_tb a then [] else [EvSummaryWriter log_name])
      ++ [EvLog (MsgCommand (sys_argv L)) false; EvLog MsgModel true].
Proof.
  intros Hp Ha log_name.
  pose proof (main_run L a fuel w Hp) as Hm. cbv zeta in Hm.
  destruct (make_algo_known (new_envs a (envs_made w) (py_range (procs a))) w Ha)
    as (al & E & _).
  rewrite E in Hm. cbn [out] in Hm. destruct Hm as [-> _].
  rewrite !filter_app.
  rewrite (filter_all _ _ (setup_suffix_log_setup L a)).
  rewrite (filter_none is_log_setup is_loop (events (train_loop _ _ _ _ _ _)))
    by (apply train_loop_loop
        || (intros [] He; try discriminate; try reflexivity;
            destruct m; try discriminate; reflexivity)).
  assert (Hpre : filter is_log_setup (setup_prefix L a w) = []).
  { unfold setup_prefix. cbn [filter is_log_setup]. rewrite !filter_app.
    rewrite (filter_none is_log_setup is_env (env_trace a _ _))
      by (apply env_trace_all || (intros [] He; try discriminate; reflexivity)).
    destruct (cuda_is_available L); reflexivity. }
  rewrite Hpre. cbn. rewrite app_nil_r. reflexivity.
Qed.

(** X16: with a zero or negative [--save-interval] no run ever writes any
    part of a checkpoint. *)
Theorem nonpositive_save_interval_never_saves (fuel : nat) (w : World) :
  save_interval a <= 0 ->
  touches_checkpoint (events (main L fuel a w)) = false.
Proof.
  intros Hs. unfold touches_checkpoint. rewrite main_events, existsb_app.
  rewrite (existsb_none _ is_before_loop (events (setup L a w)))
    by (apply setup_before_loop
        || (intros [] He; try discriminate; reflexivity)).
  destruct (out (setup L a w)) as [mn| |]; try reflexivity. cbn [orb].
  apply loop_never. intros v w'.
  destruct (pass_stops L a (i v + 1) (S (updates w'))) eqn:Hz.
  - apply (iteration_observed_raise L a mn v w' Hz).
  - destruct (iteration_observed L a mn v w' Hz) as (_ & _ & _ & E).
    unfold touches_checkpoint in E. rewrite E.
    unfold save_test. replace (save_interval a >? 0) with false; [reflexivity|].
    symmetry. rewrite Z.gtb_ltb. apply Z.ltb_ge. exact Hs.
Qed.

End Further.

(** ** Sample runs of the further properties *)

Lemma long_run :
  out (main long_libs 10 long_args world0) = Ok {| num_frames := 12; i := 4 |}.
Proof. reflexivity. Defined.

Lemma algo_gets_all_envs_witness :
  1 <= procs long_args
  /\ (algo long_args = "a2c" \/ algo long_args = "ppo")
  /\ exists al,
       algos_built (events (main long_libs 10 long_args world0)) = [al]
       /\ algo_envs al =
            [{| env_id := 0; env_name := "E"; env_seeded := Some 1 |};
             {| env_id := 1; env_name := "E"; env_seeded := Some 2 |};
             {| env_id := 2; env_name := "E"; env_seeded := Some 3 |}].
Proof.
  assert (Hp : 1 <= procs long_args) by (cbn; lia).
  assert (Ha : algo long_args = "a2c" \/ algo long_args = "ppo")
    by (left; reflexivity).
  split; [exact Hp|]. split; [exact Ha|].
  exact (algo_gets_all_envs long_libs long_args 10 Hp Ha).
Defined.

Lemma no_env_stops_early_witness :
  procs noenv_args <= 0
  /\ out (main long_libs 10 noenv_args world0) = Raise IndexError.
Proof.
  assert (Hp : procs noenv_args <= 0) by (cbn; lia).
  split; [exact Hp|].
  exact (f_equal out (no_env_stops_early long_libs noenv_args 10 world0 Hp)).
Defined.

Lemma unknown_algo_stops_late_witness :
  1 <= procs noalgo_args
  /\ algo noalgo_args <> "a2c" /\ algo noalgo_args <> "ppo"
  /\ events (main long_libs 10 noalgo_args world0) =
       [EvSeed 1; EvGymMake 0 "E"; EvEnvSeed 0 1; EvGymMake 1 "E"; EvEnvSeed 1 2;
        EvStrftime;
        EvObssPreprocessor "E_dqn_T" (first_env noalgo_args world0);
        EvLoadModel "E_dqn_T" (first_env noalgo_args world0)].
Proof.
  assert (Hp : 1 <= procs noalgo_args) by (cbn; lia).
  assert (H1 : algo noalgo_args <> "a2c") by discriminate.
  assert (H2 : algo noalgo_args <> "ppo") by discriminate.
  split; [exact Hp|]. split; [exact H1|]. split; [exact H2|].
  exact (proj1 (proj2 (unknown_algo_stops_late long_libs noalgo_args 10 world0
                         Hp H1 H2))).
Defined.

Lemma no_frames_no_update_witness :
  frames noframes_args <= 0
  /\ 1 <= procs noframes_args
  /\ (algo noframes_args = "a2c" \/ algo noframes_args = "ppo")
  /\ out (main long_libs 0 noframes_args world0) = Ok vars0.
Proof.
  assert (Hf : frames noframes_args <= 0) by (cbn; lia).
  assert (Hp : 1 <= procs noframes_args) by (cbn; lia).
  assert (Ha : algo noframes_args = "a2c" \/ algo noframes_args = "ppo")
    by (right; reflexivity).
  split; [exact Hf|]. split; [exact Hp|]. split; [exact Ha|].
  exact (proj1 (no_frames_no_update long_libs noframes_args 0 world0 Hf Hp Ha)).
Defined.

Lemma zero_log_interval_raises_witness :
  log_interval nolog_args = 0
  /\ 0 < frames nolog_args
  /\ 1 <= procs nolog_args
  /\ (algo nolog_args = "a2c" \/ algo nolog_args = "ppo")
  /\ count_updates (events (main nolog_libs 5 nolog_args world0)) = 1%nat.
Proof.
  assert (Hf : 0 < frames nolog_args) by (cbn; lia).
  assert (Hp : 1 <= procs nolog_args) by (cbn; lia).
  assert (Ha : algo nolog_args = "a2c" \/ algo nolog_args = "ppo")
    by (left; reflexivity).
  split; [reflexivity|]. split; [exact Hf|]. split; [exact Hp|].
  split; [exact Ha|].
  exact (proj1 (proj2 (zero_log_interval_raises nolog_libs nolog_args 4 world0
                         eq_refl Hf Hp Ha))).
Defined.

Lemma log_name_one_suffix_witness :
  model long_args <> Some ""
  /\ log_name_of long_args "T" = "m_T".
Proof.
  assert (Hm : model long_args <> Some "") by discriminate.
  split; [exact Hm|].
  exact (proj1 (log_name_one_suffix long_args "T" Hm)).
Defined.

Lemma stops_at_first_enough_witness :
  out (main long_libs 10 long_args world0) = Ok {| num_frames := 12; i := 4 |}
  /\ count_updates (events (main long_libs 10 long_args world0)) = 4%nat
  /\ frames_after long_libs 3 < frames long_args
  /\ frames long_args <= frames_after long_libs 4.
Proof.
  pose proof (stops_at_first_enough long_libs long_args 10 _ long_run)
    as (_ & Hc & _ & Hf & Hk).
  split; [exact long_run|]. split; [exact Hc|]. split.
  - apply (Hk 3%nat). cbn. lia.
  - exact Hf.
Defined.

Lemma updates_bounded_by_frames_witness :
  (forall j, 1 <= log_num_frames (update_parameters long_libs j))
  /\ out (main long_libs 10 long_args world0) = Ok {| num_frames := 12; i := 4 |}
  /\ 0 <= 4 <= Z.max 0 (frames long_args).
Proof.
  assert (Hnf : forall j, 1 <= log_num_frames (update_parameters long_libs j))
    by (intros j; cbn; lia).
  split; [exact Hnf|]. split; [exact long_run|].
  exact (updates_bounded_by_frames long_libs long_args 10 _ Hnf long_run).
Defined.

Lemma log_lines_counted_witness :
  0 < log_interval long_args
  /\ out (main long_libs 10 long_args world0) = Ok {| num_frames := 12; i := 4 |}
  /\ Z.of_nat (count_metrics (events (main long_libs 10 long_args world0))) = 4 / 2.
Proof.
  assert (Hpos : 0 < log_interval long_args) by (cbn; lia).
  split; [exact Hpos|]. split; [exact long_run|].
  exact (log_lines_counted long_libs long_args 10 world0 _ Hpos long_run).
Defined.

Lemma checkpoints_counted_witness :
  0 < save_interval long_args
  /\ out (main long_libs 10 long_args world0) = Ok {| num_frames := 12; i := 4 |}
  /\ Z.of_nat (count_saves (events (main long_libs 10 long_args world0))) = 4 / 3.
Proof.
  assert (Hpos : 0 < save_interval long_args) by (cbn; lia).
  split; [exact Hpos|]. split; [exact long_run|].
  exact (checkpoints_counted long_libs long_args 10 world0 _ Hpos long_run).
Defined.

Lemma saves_from_cpu_witness :
  In (EvSaveModel "m" CPU) (events (main long_libs 10 long_args world0))
  /\ In (EvLoadModel "m" (first_env long_args world0))
        (events (main long_libs 10 long_args world0)).
Proof.
  assert (H : In (EvSaveModel "m" CPU) (events (main long_libs 10 long_args world0)))
    by (vm_compute; tauto).
  split; [exact H|].
  exact (proj2 (proj2 (saves_from_cpu long_libs long_args 10 world0 "m" CPU H))).
Defined.

Lemma scalars_on_log_steps_witness :
  In (EvAddScalar "frames" (SInt 6) 2) (events (main long_libs 10 long_args world0))
  /\ no_tb long_args = false /\ 1 <= 2 /\ (log_interval long_args | 2).
Proof.
  assert (H : In (EvAddScalar "frames" (SInt 6) 2)
                 (events (main long_libs 10 long_args world0)))
    by (vm_compute; tauto).
  split; [exact H|].
  exact (scalars_on_log_steps long_libs long_args 10 world0 _ _ _ H).
Defined.

Lemma metrics_line_reports_witness :
  In (EvLog (MsgMetrics 4 12 [tt; tt; tt; tt] [tt; tt; tt; tt] tt tt tt tt) true)
     (events (main long_libs 10 long_args world0))
  /\ 12 = frames_after long_libs (Z.to_nat 4).
Proof.
  assert (H : In (EvLog (MsgMetrics 4 12 [tt; tt; tt; tt] [tt; tt; tt; tt]
                           tt tt tt tt) true)
                 (events (main long_libs 10 long_args world0)))
    by (vm_compute; tauto).
  split; [exact H|].
  exact (proj1 (proj2 (proj2 (metrics_line_reports long_libs long_args 10
                                _ _ _ _ _ _ _ _ _ H)))).
Defined.

Lemma loggers_share_name_witness :
  1 <= procs long_args
  /\ (algo long_args = "a2c" \/ algo long_args = "ppo")
  /\ filter is_log_setup (events (main long_libs 10 long_args world0)) =
       [EvLogger "m_T"; EvSummaryWriter "m_T";
        EvLog (MsgCommand ["train.py"]) false; EvLog MsgModel true].
Proof.
  assert (Hp : 1 <= procs long_args) by (cbn; lia).
  assert (Ha : algo long_args = "a2c" \/ algo long_args = "ppo")
    by (left; reflexivity).
  split; [exact Hp|]. split; [exact Ha|].
  exact (loggers_share_name long_libs long_args 10 world0 Hp Ha).
Defined.

Lemma nonpositive_save_interval_never_saves_witness :
  save_interval (ex_args "ppo" None 2 4 1 (-3) false) <= 0
  /\ touches_checkpoint
       (events (main long_libs 10 (ex_args "ppo" None 2 4 1 (-3) false) world0))
     = false.
Proof.
  assert (Hs : save_interval (ex_args "ppo" None 2 4 1 (-3) false) <= 0)
    by (cbn; lia).
  split; [exact Hs|].
  exact (nonpositive_save_interval_never_saves long_libs
           (ex_args "ppo" None 2 4 1 (-3) false) 10 world0 Hs).
Defined.
